(** * kaiwadb: schema facade ([Document], [Field]) and the [ObjectId] adapter

    A shallow embedding of [kaiwadb/document.py] and
    [kaiwadb/types/object_id.py].  The two modules are thin layers over
    pydantic and over bson's [ObjectId]; the parts of those libraries that
    the repository's code calls are embedded next to it, following their
    sources (pydantic [fields.py], pydantic-core's validators and
    serializers, bson [objectid.py], CPython's [bytes.fromhex]). *)

From Stdlib Require Import ZArith NArith Ascii String Strings.Byte DecimalString.
From stdpp Require Import base option list gmap strings.

Local Open Scope string_scope.

(** ** Python values *)

(** The classes of the values that the code inspects.  [cls__ObjectId] is
    [bson.ObjectId] (imported as [_ObjectId]); [cls_ObjectId] is the
    adapter [kaiwadb.types.object_id.ObjectId], its subclass. *)
Inductive PyClass : Type :=
  | cls_NoneType
  | cls_ellipsis
  | cls_int
  | cls_str
  | cls_bytes
  | cls__ObjectId
  | cls_ObjectId.

(** A [str] is kept as its UTF-8 encoding, one [ascii] per byte; a [bytes]
    is a [list byte].  An identifier object carries its class and the
    private [__id] attribute. *)
Inductive Value : Type :=
  | VNone
  | VEllipsis
  | VInt (z : Z)
  | VStr (s : string)
  | VBytes (b : list byte)
  | VObjectId (cls : PyClass) (binary : list byte).

(** [type(v)] *)
Definition type_of (v : Value) : PyClass :=
  match v with
  | VNone => cls_NoneType
  | VEllipsis => cls_ellipsis
  | VInt _ => cls_int
  | VStr _ => cls_str
  | VBytes _ => cls_bytes
  | VObjectId cls _ => cls
  end.

Definition PyClass_eqb (a b : PyClass) : bool :=
  match a, b with
  | cls_NoneType, cls_NoneType | cls_ellipsis, cls_ellipsis
  | cls_int, cls_int | cls_str, cls_str | cls_bytes, cls_bytes
  | cls__ObjectId, cls__ObjectId | cls_ObjectId, cls_ObjectId => true
  | _, _ => false
  end.

(** [issubclass(a, b)]: reflexive, and [class ObjectId(_ObjectId)]. *)
Definition issubclass (a b : PyClass) : bool :=
  match a, b with
  | cls_ObjectId, cls__ObjectId => true
  | _, _ => PyClass_eqb a b
  end.

(** [isinstance(v, cls)] *)
Definition isinstance (v : Value) (cls : PyClass) : bool :=
  issubclass (type_of v) cls.

(** [<class 'int'>], as [type(v)] prints inside an f-string. *)
Definition class_repr (c : PyClass) : string :=
  match c with
  | cls_NoneType => "<class 'NoneType'>"
  | cls_ellipsis => "<class 'ellipsis'>"
  | cls_int => "<class 'int'>"
  | cls_str => "<class 'str'>"
  | cls_bytes => "<class 'bytes'>"
  | cls__ObjectId => "<class 'bson.objectid.ObjectId'>"
  | cls_ObjectId => "<class 'kaiwadb.types.object_id.ObjectId'>"
  end.

(** ** Exceptions and results *)

(** The kinds of problem a pydantic-core validator reports for one input
    ([ErrorType]), the report itself ([LineError]: the kind and the place;
    the input it echoes is left out) and the exceptions.
    [InvalidId] is [bson.errors.InvalidId], a [BSONError], hence an
    [Exception] that is neither a [ValueError] nor a [TypeError]; it
    carries the value its message quotes. *)
Inductive ErrorType : Type :=
  | missing
  | string_type
  | string_unicode
  | is_instance_of (cls : PyClass)
  | needs_python_object
  | value_error (error : PyException)
  | assertion_error (error : PyException)
with LineError : Type :=
  | mkLineError (error_type : ErrorType) (loc : list string)
with PyException : Type :=
  | NotImplementedError (msg : string)
  | TypeError (msg : string)
  | ValueError (msg : string)
  | AssertionError (msg : string)
  | InvalidId (oid : Value)
  | ValidationError (line_errors : list LineError)
  | PydanticSerializationError (msg : string).

(** What a call does: it returns a value or raises. *)
Inductive PyResult (A : Type) : Type :=
  | Returned (a : A)
  | Raised (e : PyException).
Arguments Returned {A} a.
Arguments Raised {A} e.

Definition py_bind {A B} (r : PyResult A) (k : A -> PyResult B) : PyResult B :=
  match r with
  | Returned a => k a
  | Raised e => Raised e
  end.

Notation "x <- r ;; k" := (py_bind r (fun x => k))
  (at level 100, r at next level, right associativity).

(** ** pydantic: field descriptors *)

(** [pydantic.fields.FieldInfo], the attributes [Field] sets.  [default] is
    [None] for [PydanticUndefined]: the field is required. *)
Record FieldInfo : Type := {
  default : option Value;
  alias : option string;
  validation_alias : option string;
  serialization_alias : option string;
  description : option string;
}.

(** [pydantic.Field(default=, alias=, description=)].  An Ellipsis default
    is stored as [PydanticUndefined]; the validation and the serialization
    alias, not given, both take the value of [alias]. *)
Definition PydanticField (default : Value) (alias description : option string)
  : FieldInfo :=
  {| default := match default with VEllipsis => None | d => Some d end;
     alias := alias;
     validation_alias := alias;
     serialization_alias := alias;
     description := description |}.

(** ** CPython: [len] of a [str], [bytes.fromhex], [bytes.hex] *)

(** [len(s)] counts code points: in the UTF-8 encoding, the bytes that are
    not continuation bytes [10xxxxxx]. *)
Definition is_continuation (c : ascii) : bool :=
  N.eqb (N.land (N_of_ascii c) 192) 128.

Fixpoint py_len (s : string) : nat :=
  match s with
  | EmptyString => 0
  | String c s' => if is_continuation c then py_len s' else S (py_len s')
  end.

(** [Py_ISSPACE]: tab, line feed, vertical tab, form feed, carriage return,
    space. *)
Definition Py_ISSPACE (c : ascii) : bool :=
  let n := N_of_ascii c in
  (N.leb 9 n && N.leb n 13) || N.eqb n 32.

(** [_PyLong_DigitValue] for base 16: the value of a hexadecimal digit of
    either case, nothing for any other character. *)
Definition digit_value (c : ascii) : option N :=
  let n := N_of_ascii c in
  if N.leb 48 n && N.leb n 57 then Some (n - 48)%N
  else if N.leb 97 n && N.leb n 102 then Some (n - 87)%N
  else if N.leb 65 n && N.leb n 70 then Some (n - 55)%N
  else None.

(** [bytes.fromhex(s)]; [None] is its [ValueError].  White space is skipped
    before a pair of digits and at the end, never inside a pair; a
    character that is not ASCII is an error like any other non-digit. *)
Fixpoint fromhex (s : string) : option (list byte) :=
  match s with
  | EmptyString => Some []
  | String c s' =>
      if Py_ISSPACE c then fromhex s'
      else
        match digit_value c, s' with
        | Some top, String d s'' =>
            match digit_value d with
            | Some bot =>
                match Byte.of_N (16 * top + bot), fromhex s'' with
                | Some b, Some rest => Some (b :: rest)
                | _, _ => None
                end
            | None => None
            end
        | _, _ => None
        end
  end.

(** The lower-case hexadecimal digit of a value below 16. *)
Definition hex_digit (n : N) : ascii :=
  if N.ltb n 10 then ascii_of_N (48 + n) else ascii_of_N (87 + n).

(** [binascii.hexlify(b).decode()]: two lower-case digits per byte. *)
Fixpoint hexlify (b : list byte) : string :=
  match b with
  | [] => EmptyString
  | x :: b' =>
      let n := Byte.to_N x in
      String (hex_digit (N.div n 16)) (String (hex_digit (N.modulo n 16)) (hexlify b'))
  end.

(** ** bson: [ObjectId] *)

(** [ObjectId.__init__(self, oid)] followed by [__validate]: the value of
    [self.__id], or the exception.  [generated] stands for the twelve bytes
    that [__generate()] makes up (time stamp, process random, counter) when
    [oid] is [None]. *)
Definition ObjectId__init__ (generated : list byte) (oid : Value)
  : PyResult (list byte) :=
  match oid with
  | VNone => Returned generated
  | VBytes b =>
      if Nat.eqb (length b) 12 then Returned b
      else Raised (TypeError
             ("id must be an instance of (bytes, str, ObjectId), not "
              ++ class_repr (type_of oid)))
  | VObjectId _ binary => Returned binary
  | VStr s =>
      if Nat.eqb (py_len s) 24 then
        match fromhex s with
        | Some b => Returned b
        | None => Raised (InvalidId oid)
        end
      else Raised (InvalidId oid)
  | _ => Raised (TypeError
           ("id must be an instance of (bytes, str, ObjectId), not "
            ++ class_repr (type_of oid)))
  end.

(** Calling a class of identifiers, [cls(oid)]: a new object of that class.
    Both identifier classes share bson's constructor. *)
Definition new (cls : PyClass) (generated : list byte) (oid : Value)
  : PyResult Value :=
  binary <- ObjectId__init__ generated oid ;;
  Returned (VObjectId cls binary).

(** [ObjectId.__str__] *)
Definition ObjectId__str__ (binary : list byte) : string := hexlify binary.

#[global] Instance byte_eq_dec : EqDecision byte := Byte.byte_eq_dec.

(** [ObjectId.__eq__] between identifiers compares the twelve bytes. *)
Definition ObjectId__eq__ (a b : Value) : bool :=
  match a, b with
  | VObjectId _ x, VObjectId _ y => bool_decide (x = y)
  | _, _ => false
  end.

(** ** CPython: [str(x)] *)

Definition quote1 : ascii := ascii_of_N 39.
Definition quote2 : ascii := ascii_of_N 34.
Definition backslash : ascii := ascii_of_N 92.

Definition mem_ascii (c : ascii) (s : string) : bool :=
  existsb (Ascii.eqb c) (list_ascii_of_string s).

(** [repr] of one byte inside a bytes literal delimited by [quote]. *)
Definition repr_byte (quote : ascii) (x : byte) : string :=
  let n := Byte.to_N x in
  let c := ascii_of_N n in
  if Ascii.eqb c quote || Ascii.eqb c backslash then String backslash (String c EmptyString)
  else if N.eqb n 9 then String backslash "t"
  else if N.eqb n 10 then String backslash "n"
  else if N.eqb n 13 then String backslash "r"
  else if N.ltb n 32 || N.leb 127 n then
    String backslash
      (String "x" (String (hex_digit (N.div n 16)) (String (hex_digit (N.modulo n 16)) EmptyString)))
  else String c EmptyString.

(** [repr(b)] of a [bytes]: single quotes, unless it holds a single quote
    and no double quote. *)
Definition bytes_repr (b : list byte) : string :=
  let raw := string_of_list_byte b in
  let quote := if mem_ascii quote1 raw && negb (mem_ascii quote2 raw)
               then quote2 else quote1 in
  String "b" (String quote
    (String.concat EmptyString (map (repr_byte quote) b) ++ String quote EmptyString)).

(** [str(x)] *)
Definition str (x : Value) : string :=
  match x with
  | VNone => "None"
  | VEllipsis => "Ellipsis"
  | VInt z => NilZero.string_of_int (Z.to_int z)
  | VStr s => s
  | VBytes b => bytes_repr b
  | VObjectId _ binary => ObjectId__str__ binary
  end.

(** Well-formed UTF-8 (no overlong forms, no surrogates, at most U+10FFFF),
    as Rust's [from_utf8] checks it. *)
Definition between (lo hi n : N) : bool := N.leb lo n && N.leb n hi.

Fixpoint utf8_valid (l : list N) : bool :=
  match l with
  | [] => true
  | a :: l1 =>
      if N.leb a 127 then utf8_valid l1
      else
        match l1 with
        | [] => false
        | b :: l2 =>
            if between 194 223 a then between 128 191 b && utf8_valid l2
            else
              match l2 with
              | [] => false
              | c :: l3 =>
                  if between 224 239 a then
                    between (if N.eqb a 224 then 160 else 128)
                            (if N.eqb a 237 then 159 else 191) b
                    && between 128 191 c && utf8_valid l3
                  else
                    match l3 with
                    | [] => false
                    | d :: l4 =>
                        between 240 244 a
                        && between (if N.eqb a 240 then 144 else 128)
                                   (if N.eqb a 244 then 143 else 191) b
                        && between 128 191 c && between 128 191 d
                        && utf8_valid l4
                    end
              end
        end
  end.

(** [bytes.decode()] where pydantic-core needs it: the [str], if the bytes
    are well-formed UTF-8. *)
Definition decode_utf8 (b : list byte) : option string :=
  if utf8_valid (map Byte.to_N b) then Some (string_of_list_byte b) else None.

(** ** pydantic-core: core schemas *)

Inductive Mode : Type := PythonMode | JsonMode.

(** The [when_used] argument of a serializer: ['always'], ['unless-none'],
    ['json'], ['json-unless-none']. *)
Inductive WhenUsed : Type := Always | UnlessNone | Json | JsonUnlessNone.

#[local] Set Warnings "-register-all".

(** The schemas that the repository builds, under the names of their
    constructors in [pydantic_core.core_schema]; [any_schema] is what the
    annotation [Any] compiles to. *)
Inductive CoreSchema : Type :=
  | any_schema
  | str_schema
  | is_instance_schema (cls : PyClass)
  | no_info_plain_validator_function (function : Value -> PyResult Value)
  | union_schema (choices : list CoreSchema)
  | json_or_python_schema (json_schema python_schema : CoreSchema)
      (serialization : option SerSchema)
with SerSchema : Type :=
  | plain_serializer_function_ser_schema (function : Value -> PyResult Value)
      (return_schema : option CoreSchema) (when_used : WhenUsed).

(** pydantic-core's [ValResult]: a value, the reports of a failed
    validation, or an exception that is not a validation failure. *)
Inductive ValResult (A : Type) : Type :=
  | Valid (a : A)
  | LineErrors (errors : list LineError)
  | InternalErr (e : PyException).
Arguments Valid {A} a.
Arguments LineErrors {A} errors.
Arguments InternalErr {A} e.

(** How closely an input matched a validator: converted ([Lax]), of the
    right kind but not exactly the type asked for ([Strict]), or exactly
    it ([Exact]).  A union uses it to choose among its choices. *)
Inductive Exactness : Type := Lax | Strict | Exact.

Definition Exactness_lt (a b : Exactness) : bool :=
  match a, b with
  | Lax, (Strict | Exact) | Strict, Exact => true
  | _, _ => false
  end.

(** [convert_err] of pydantic-core's function validators: a [ValueError]
    (and [ValidationError], its subclass) or an [AssertionError] raised by
    the function is a validation failure; every other exception is passed
    on as it is.  A function validator leaves the exactness alone. *)
Definition convert_err (r : PyResult Value) : ValResult (Value * Exactness) :=
  match r with
  | Returned v => Valid (v, Exact)
  | Raised (ValueError _ as e) | Raised (ValidationError _ as e) =>
      LineErrors [mkLineError (value_error e) []]
  | Raised (AssertionError _ as e) =>
      LineErrors [mkLineError (assertion_error e) []]
  | Raised e => InternalErr e
  end.

(** The validator of a [str_schema] in lax mode: a [str] is taken as it is
    (a JSON string is no more than a strict match: it may stand for a
    richer type); from Python, a [bytes] is decoded. *)
Definition validate_str (mode : Mode) (input : Value)
  : ValResult (Value * Exactness) :=
  match input, mode with
  | VStr _, PythonMode => Valid (input, Exact)
  | VStr _, JsonMode => Valid (input, Strict)
  | VBytes b, PythonMode =>
      match decode_utf8 b with
      | Some s => Valid (VStr s, Lax)
      | None => LineErrors [mkLineError string_unicode []]
      end
  | _, _ => LineErrors [mkLineError string_type []]
  end.

(** The validator of an [is_instance_schema]: JSON input is no Python
    object; an instance is returned as it is. *)
Definition validate_is_instance (mode : Mode) (cls : PyClass) (input : Value)
  : ValResult (Value * Exactness) :=
  match mode with
  | JsonMode => LineErrors [mkLineError needs_python_object []]
  | PythonMode =>
      if isinstance input cls then Valid (input, Exact)
      else LineErrors [mkLineError (is_instance_of cls) []]
  end.

(** The better of the match kept so far and a new one: the new one only if
    it is more exact. *)
Definition best_match (cur : option (Value * Exactness)) (m : Value * Exactness)
  : option (Value * Exactness) :=
  match cur with
  | None => Some m
  | Some (_, ex) => if Exactness_lt ex (snd m) then Some m else cur
  end.

(** The validator a schema compiles to, with the exactness of the match.
    [any_schema] accepts everything as a strict match.  A union (in its
    default, smart mode) tries its choices from left to right: an exact
    match is returned at once, of the others the most exact is kept and
    returned at the end; the reports of the failed choices are gathered as
    long as nothing matched (the tag of the choice, which the union adds to
    the place of a report, is left out); an exception that is not a
    validation failure ends the search. *)
Fixpoint validator (mode : Mode) (schema : CoreSchema) (input : Value)
  : ValResult (Value * Exactness) :=
  match schema with
  | any_schema => Valid (input, Strict)
  | str_schema => validate_str mode input
  | is_instance_schema cls => validate_is_instance mode cls input
  | no_info_plain_validator_function function => convert_err (function input)
  | union_schema choices =>
      (fix try_choices (cs : list CoreSchema) (best : option (Value * Exactness))
           (errors : list LineError) :=
         match cs with
         | [] =>
             match best with
             | Some m => Valid m
             | None => LineErrors errors
             end
         | c :: cs' =>
             match validator mode c input with
             | Valid (v, Exact) => Valid (v, Exact)
             | Valid m => try_choices cs' (best_match best m) errors
             | LineErrors lines =>
                 try_choices cs' best
                   (match best with
                    | None => (errors ++ lines)%list
                    | Some _ => errors
                    end)
             | InternalErr e => InternalErr e
             end
         end) choices None []
  | json_or_python_schema json_schema python_schema _ =>
      match mode with
      | JsonMode => validator mode json_schema input
      | PythonMode => validator mode python_schema input
      end
  end.

(** The value a schema's validator gives. *)
Definition validate (mode : Mode) (schema : CoreSchema) (input : Value)
  : ValResult Value :=
  match validator mode schema input with
  | Valid (v, _) => Valid v
  | LineErrors lines => LineErrors lines
  | InternalErr e => InternalErr e
  end.

(** What the caller of [SchemaValidator.validate_python] or
    [validate_json] sees: the reports raised as a [ValidationError], any
    other exception raised as it is. *)
Definition raise_errors {A} (r : ValResult A) : PyResult A :=
  match r with
  | Valid a => Returned a
  | LineErrors errors => Raised (ValidationError errors)
  | InternalErr e => Raised e
  end.

Definition validate_python (schema : CoreSchema) (input : Value) : PyResult Value :=
  raise_errors (validate PythonMode schema input).

Definition validate_json (schema : CoreSchema) (input : Value) : PyResult Value :=
  raise_errors (validate JsonMode schema input).

(** *** Serializers *)

Definition should_use (w : WhenUsed) (mode : Mode) (v : Value) : bool :=
  let json := match mode with JsonMode => true | PythonMode => false end in
  let none := match v with VNone => true | _ => false end in
  match w with
  | Always => true
  | UnlessNone => negb none
  | Json => json
  | JsonUnlessNone => json && negb none
  end.

(** Serialization by the run-time type of the value: unchanged in Python
    mode; in JSON mode [None], [int] and [str] are JSON values, a [bytes]
    is decoded, and a value of an unknown class is refused. *)
Definition infer (mode : Mode) (v : Value) : PyResult Value :=
  match mode, v with
  | PythonMode, _ => Returned v
  | JsonMode, (VNone | VInt _ | VStr _) => Returned v
  | JsonMode, VBytes b =>
      match decode_utf8 b with
      | Some s => Returned (VStr s)
      | None => Raised (PydanticSerializationError "invalid utf-8 sequence")
      end
  | JsonMode, _ =>
      Raised (PydanticSerializationError
                ("Unable to serialize unknown type: " ++ class_repr (type_of v)))
  end.

(** The serializer a schema compiles to.  Only [json_or_python_schema]
    carries a serializer of its own here; with the others, and when the
    function is not to be used, the value is serialized by its type. *)
Fixpoint serialize (mode : Mode) (schema : CoreSchema) (v : Value) : PyResult Value :=
  match schema with
  | json_or_python_schema json_schema python_schema serialization =>
      match serialization with
      | Some (plain_serializer_function_ser_schema function return_schema when_used) =>
          if should_use when_used mode v then
            match function v with
            | Returned r =>
                match return_schema with
                | Some rs => serialize mode rs r
                | None => infer mode r
                end
            | Raised _ =>
                Raised (PydanticSerializationError "Error calling function `<lambda>`")
            end
          else infer mode v
      | None =>
          match mode with
          | JsonMode => serialize mode json_schema v
          | PythonMode => serialize mode python_schema v
          end
      end
  | _ => infer mode v
  end.

(** ** kaiwadb/types/object_id.py *)

Module ObjectId.

(** [ObjectId.__get_pydantic_core_schema__(cls, _source_type, _handler)].
    [cls(x)] calls the class; [generated] is passed on to bson's
    constructor. *)
Definition __get_pydantic_core_schema__ {A B} (generated : list byte)
    (cls : PyClass) (_source_type : A) (_handler : B) : CoreSchema :=
  json_or_python_schema
    str_schema
    (union_schema
       [ is_instance_schema cls__ObjectId;
         no_info_plain_validator_function (fun x => new cls generated x) ])
    (Some (plain_serializer_function_ser_schema
             (fun x => Returned (VStr (str x))) (Some str_schema) Json)).

End ObjectId.

(** The core schema of a field annotated with the adapter class. *)
Definition ObjectId_schema (generated : list byte) : CoreSchema :=
  ObjectId.__get_pydantic_core_schema__ generated cls_ObjectId cls_ObjectId ().

(** ** pydantic: models *)

(** A declared attribute of a model class: the core schema of its
    annotation and the descriptor assigned to it. *)
Record FieldDecl : Type := {
  annotation : CoreSchema;
  field_info : FieldInfo;
}.

(** The key under which a field is looked up in the input: its validation
    alias if it has one, its name otherwise ([populate_by_name] is off by
    default, and [Document] does not configure it). *)
Definition lookup_key (name : string) (info : FieldInfo) : string :=
  match validation_alias info with
  | Some a => a
  | None => name
  end.

(** The key under which a field is written by [model_dump]. *)
Definition serialization_key (by_alias : bool) (name : string) (info : FieldInfo)
  : string :=
  if by_alias then
    match serialization_alias info with
    | Some a => a
    | None => name
    end
  else name.

Definition with_loc (key : string) (e : LineError) : LineError :=
  match e with
  | mkLineError t l => mkLineError t (key :: l)
  end.

(** One field of pydantic-core's model-fields validator: the value found
    under the key is validated; without one the default is taken, and a
    field that has none is reported missing. *)
Definition validate_field (mode : Mode) (data : gmap string Value)
    (name : string) (f : FieldDecl) : ValResult Value :=
  let key := lookup_key name (field_info f) in
  match data !! key with
  | Some v =>
      match validate mode (annotation f) v with
      | Valid v' => Valid v'
      | LineErrors lines => LineErrors (map (with_loc key) lines)
      | InternalErr e => InternalErr e
      end
  | None =>
      match default (field_info f) with
      | Some d => Valid d
      | None => LineErrors [mkLineError missing [key]]
      end
  end.

(** The loop over the fields: values are stored under the declared names,
    reports are gathered from all fields, an exception that is not a
    validation failure ends the loop; keys of the input that no field looks
    up are ignored. *)
Fixpoint validate_fields (mode : Mode) (fields : list (string * FieldDecl))
    (data : gmap string Value) (model_dict : gmap string Value)
    (errors : list LineError) : ValResult (gmap string Value) :=
  match fields with
  | [] =>
      match errors with
      | [] => Valid model_dict
      | _ => LineErrors errors
      end
  | (name, f) :: rest =>
      match validate_field mode data name f with
      | Valid v => validate_fields mode rest data (<[name := v]> model_dict) errors
      | LineErrors lines => validate_fields mode rest data model_dict (errors ++ lines)%list
      | InternalErr e => InternalErr e
      end
  end.

(** The loop of the model serializer. *)
Fixpoint serialize_fields (mode : Mode) (by_alias : bool)
    (fields : list (string * FieldDecl)) (self : gmap string Value)
    (out : gmap string Value) : PyResult (gmap string Value) :=
  match fields with
  | [] => Returned out
  | (name, f) :: rest =>
      match self !! name with
      | Some v =>
          v' <- serialize mode (annotation f) v ;;
          serialize_fields mode by_alias rest self
            (<[serialization_key by_alias name (field_info f) := v']> out)
      | None => serialize_fields mode by_alias rest self out
      end
  end.

(** ** kaiwadb/document.py *)

(** A class deriving from [Document]: the three class variables and the
    annotated attributes of the class body.  An instance is the dictionary
    of its attribute values. *)
Record DocumentClass : Type := {
  __collection__ : option string;
  __table__ : option string;
  __description__ : option string;
  model_fields : list (string * FieldDecl);
}.

(** [class Document(BaseModel)] *)
Definition Document : DocumentClass :=
  {| __collection__ := None;
     __table__ := None;
     __description__ := None;
     model_fields := [] |}.

(** [cls.model_validate(obj)], [cls.model_validate_json] on the parsed
    object, and [self.model_dump(mode=, by_alias=)]. *)
Definition model_validate (cls : DocumentClass) (obj : gmap string Value)
  : PyResult (gmap string Value) :=
  raise_errors (validate_fields PythonMode (model_fields cls) obj ∅ []).

Definition model_validate_json (cls : DocumentClass) (obj : gmap string Value)
  : PyResult (gmap string Value) :=
  raise_errors (validate_fields JsonMode (model_fields cls) obj ∅ []).

Definition model_dump (cls : DocumentClass) (mode : Mode) (by_alias : bool)
    (self : gmap string Value) : PyResult (gmap string Value) :=
  serialize_fields mode by_alias (model_fields cls) self ∅.

(** The [relation] argument of [Field]: a pair, or a list of pairs, of a
    document and a field name. *)
Inductive Relation : Type :=
  | relation_one (target : DocumentClass * string)
  | relation_many (targets : list (DocumentClass * string)).

(** [Field(default, db_name, description, examples, relation)] *)
Definition Field (default : Value) (db_name description : option string)
    (examples : option (list Value)) (relation : option Relation)
  : PyResult FieldInfo :=
  match examples with
  | Some _ => Raised (NotImplementedError "Field examples are not yet implemented")
  | None =>
      match relation with
      | Some _ => Raised (NotImplementedError "Field relations are not yet implemented")
      | None => Returned (PydanticField default db_name description)
      end
  end.

(** ** The canonical string form of an identifier *)

(** The canonical string form of an identifier is the one [str] renders:
    24 hexadecimal digits, the letters in lower case. *)
Definition is_lower_hex (c : ascii) : bool :=
  let n := N_of_ascii c in
  between 48 57 n || between 97 102 n.

Definition is_canonical (s : string) : bool :=
  Nat.eqb (String.length s) 24 && forallb is_lower_hex (list_ascii_of_string s).

(** The ways the loop over the fields can fail with a report [e0] at hand:
    the reports are raised together, [e0] among them, or the validator of
    some field raised an exception of its own. *)
Definition fails_with (mode : Mode) (data : gmap string Value)
    (fields : list (string * FieldDecl)) (e0 : LineError)
    (r : ValResult (gmap string Value)) : Prop :=
  (exists es, r = LineErrors es /\ e0 ∈ es)
  \/ (exists e n f, (n, f) ∈ fields
                    /\ validate_field mode data n f = InternalErr e
                    /\ r = InternalErr e).

(** ** A schema to run the definitions on *)

(** After the example of [Field]'s docstring:
    [[
    class Customer(Document):
        __collection__ = "customers"
        customer_id: Any = Field(..., db_name="id",
                                 description="Unique customer identifier")
        email: str = Field(..., description="Customer email address")
    ]]
    with the descriptors that the two calls of [Field] return. *)
Definition Customer : DocumentClass :=
  {| __collection__ := Some "customers";
     __table__ := None;
     __description__ := None;
     model_fields :=
       [ ("customer_id",
          {| annotation := any_schema;
             field_info :=
               PydanticField VEllipsis (Some "id") (Some "Unique customer identifier") |});
         ("email",
          {| annotation := str_schema;
             field_info :=
               PydanticField VEllipsis None (Some "Customer email address") |}) ] |}.

(** ** Letter case *)

(** [str.lower()] on ASCII text: the capital letters are lowered, every
    other byte is kept. *)
Definition lower_char (c : ascii) : ascii :=
  let n := N_of_ascii c in
  if between 65 90 n then ascii_of_N (n + 32) else c.

Fixpoint lower (s : string) : string :=
  match s with
  | EmptyString => EmptyString
  | String c s' => String (lower_char c) (lower s')
  end.

(** A hexadecimal digit of either case. *)
Definition is_hex (c : ascii) : bool :=
  match digit_value c with
  | Some _ => true
  | None => false
  end.

(** ** Classes that differ in their descriptions *)

(** Two declarations of the same attribute, with the same annotation, made
    by calls of [Field] that differ in [description] at most. *)
Definition same_but_description (f g : string * FieldDecl) : Prop :=
  f.1 = g.1
  /\ annotation f.2 = annotation g.2
  /\ exists default db_name description description',
       Field default db_name description None None = Returned (field_info f.2)
       /\ Field default db_name description' None None = Returned (field_info g.2).

(** ** A second schema, with a field of the adapter type *)

(** [[
    class Product(Document):
        __table__ = "products"
        product_id: ObjectId = Field(..., db_name="_id")
        label: str = Field("unnamed", db_name="name",
                           description="Label shown to customers")
        note: Any = Field(None)
    ]] *)
Definition Product : DocumentClass :=
  {| __collection__ := None;
     __table__ := Some "products";
     __description__ := None;
     model_fields :=
       [ ("product_id",
          {| annotation := ObjectId_schema [];
             field_info := PydanticField VEllipsis (Some "_id") None |});
         ("label",
          {| annotation := str_schema;
             field_info :=
               PydanticField (VStr "unnamed") (Some "name")
                 (Some "Label shown to customers") |});
         ("note",
          {| annotation := any_schema;
             field_info := PydanticField VNone None None |}) ] |}.

(** * Properties *)

(** ** Sanity checks of the library functions *)

Example fromhex_upper : fromhex "0A" = Some [x0a].
Proof. reflexivity. Qed.
Example fromhex_space : fromhex "00 11 " = Some [x00; x11].
Proof. reflexivity. Qed.
Example fromhex_odd : fromhex "0 0" = None.
Proof. reflexivity. Qed.
Example hexlify_ex : hexlify [x0a; xff] = "0aff".
Proof. reflexivity. Qed.
Example str_int : str (VInt (-42)) = "-42".
Proof. reflexivity. Qed.
Example str_bytes : str (VBytes [x61; x0a; x27]) = String "b" (String quote2 ("a" ++ String backslash "n'" ++ String quote2 EmptyString)).
Proof. reflexivity. Qed.

(** ** The field factory *)

(** C2: whatever the other arguments are, [Field] called with [examples]
    other than [None] raises [NotImplementedError]; no descriptor is
    returned. *)
Theorem Field_examples_not_implemented
    (default : Value) (db_name description : option string)
    (examples : list Value) (relation : option Relation) :
  Field default db_name description (Some examples) relation
  = Raised (NotImplementedError "Field examples are not yet implemented")
  /\ forall info, Field default db_name description (Some examples) relation
                  <> Returned info.
Proof. split; [reflexivity | intros info; discriminate]. Qed.

(** C3: whatever the other arguments are ([examples] included), [Field]
    called with [relation] other than [None] raises [NotImplementedError];
    no descriptor is returned. *)
Theorem Field_relation_not_implemented
    (default : Value) (db_name description : option string)
    (examples : option (list Value)) (relation : Relation) :
  (exists msg, Field default db_name description examples (Some relation)
               = Raised (NotImplementedError msg))
  /\ forall info, Field default db_name description examples (Some relation)
                  <> Returned info.
Proof.
  destruct examples as [ex|]; (split; [eexists; reflexivity | intros info; discriminate]).
Qed.

(** C10: with both [examples] and [relation] given, the failure raised is
    the one for [examples], whose test comes first. *)
Theorem Field_examples_checked_first
    (default : Value) (db_name description : option string)
    (examples : list Value) (relation : Relation) :
  Field default db_name description (Some examples) (Some relation)
  = Raised (NotImplementedError "Field examples are not yet implemented")
  /\ Field default db_name description None (Some relation)
     = Raised (NotImplementedError "Field relations are not yet implemented").
Proof. split; reflexivity. Qed.

(** ** Hexadecimal digits *)

Section Hex.

Local Open Scope N_scope.

Lemma below_16 (n : N) :
  n < 16 -> In n [0; 1; 2; 3; 4; 5; 6; 7; 8; 9; 10; 11; 12; 13; 14; 15].
Proof. simpl. lia. Qed.

Ltac each_digit H :=
  apply below_16 in H; simpl in H;
  repeat (destruct H as [<- | H]; [reflexivity |]); destruct H.

Lemma digit_value_hex_digit (n : N) :
  n < 16 -> digit_value (hex_digit n) = Some n.
Proof. intros H. each_digit H. Qed.

Lemma hex_digit_not_space (n : N) :
  n < 16 -> Py_ISSPACE (hex_digit n) = false.
Proof. intros H. each_digit H. Qed.

Lemma hex_digit_not_continuation (n : N) :
  n < 16 -> is_continuation (hex_digit n) = false.
Proof. intros H. each_digit H. Qed.

Lemma hex_digit_lower (n : N) :
  n < 16 -> is_lower_hex (hex_digit n) = true.
Proof. intros H. each_digit H. Qed.

(** Every lower-case digit is the digit of its value. *)
Lemma lower_hex_is_hex_digit (c : ascii) :
  is_lower_hex c = true -> exists t, t < 16 /\ c = hex_digit t.
Proof.
  unfold is_lower_hex, between. intros H.
  rewrite <- (ascii_N_embedding c). set (n := N_of_ascii c) in *.
  apply orb_prop in H as [H | H];
    apply andb_prop in H as [H1 H2];
    apply N.leb_le in H1; apply N.leb_le in H2.
  - exists (n - 48). split; [lia |]. unfold hex_digit.
    destruct (N.ltb_spec (n - 48) 10); [| lia].
    f_equal. lia.
  - exists (n - 87). split; [lia |]. unfold hex_digit.
    destruct (N.ltb_spec (n - 87) 10); [lia |].
    f_equal. lia.
Qed.

Lemma byte_high_low (x : byte) :
  Byte.to_N x / 16 < 16 /\ Byte.to_N x mod 16 < 16
  /\ 16 * (Byte.to_N x / 16) + Byte.to_N x mod 16 = Byte.to_N x.
Proof.
  pose proof (Byte.to_N_bounded x) as Hb.
  split; [apply N.Div0.div_lt_upper_bound; lia |].
  split; [apply N.mod_lt; lia |].
  symmetry. apply N.div_mod. lia.
Qed.

(** The byte made of two digit values. *)
Lemma byte_of_digits (t u : N) :
  t < 16 -> u < 16 ->
  exists x, Byte.of_N (16 * t + u) = Some x
            /\ Byte.to_N x / 16 = t /\ Byte.to_N x mod 16 = u.
Proof.
  intros Ht Hu.
  destruct (Byte.of_N (16 * t + u)) as [x |] eqn:E.
  - exists x. split; [reflexivity |].
    apply Byte.to_of_N in E. rewrite E.
    split; symmetry.
    + apply (N.div_unique _ 16 t u); lia.
    + apply (N.mod_unique _ 16 t u); lia.
  - apply Byte.of_N_None_iff in E. lia.
Qed.

End Hex.

(** [bytes.fromhex] reads back what [hexlify] writes. *)
Lemma fromhex_hexlify (b : list byte) : fromhex (hexlify b) = Some b.
Proof.
  induction b as [| x b IH]; [reflexivity |].
  destruct (byte_high_low x) as (Hh & Hl & Hx).
  cbn [hexlify fromhex].
  rewrite (hex_digit_not_space _ Hh), (digit_value_hex_digit _ Hh),
    (digit_value_hex_digit _ Hl), Hx, Byte.of_to_N, IH.
  reflexivity.
Qed.

Lemma length_hexlify (b : list byte) : String.length (hexlify b) = 2 * length b.
Proof. induction b as [| x b IH]; cbn [hexlify String.length length]; lia. Qed.

Lemma py_len_hexlify (b : list byte) : py_len (hexlify b) = 2 * length b.
Proof.
  induction b as [| x b IH]; [reflexivity |].
  destruct (byte_high_low x) as (Hh & Hl & _).
  cbn [hexlify py_len length].
  rewrite (hex_digit_not_continuation _ Hh), (hex_digit_not_continuation _ Hl), IH.
  lia.
Qed.

Lemma hexlify_lower (b : list byte) :
  forallb is_lower_hex (list_ascii_of_string (hexlify b)) = true.
Proof.
  induction b as [| x b IH]; [reflexivity |].
  destruct (byte_high_low x) as (Hh & Hl & _).
  cbn [hexlify list_ascii_of_string forallb].
  rewrite (hex_digit_lower _ Hh), (hex_digit_lower _ Hl), IH. reflexivity.
Qed.

(** What [str] renders for twelve bytes is canonical. *)
Lemma hexlify_canonical (b : list byte) :
  length b = 12 -> is_canonical (hexlify b) = true.
Proof.
  intros H. unfold is_canonical.
  rewrite length_hexlify, H, hexlify_lower. reflexivity.
Qed.

(** A string of [2 * n] lower-case digits renders some [n] bytes. *)
Lemma lower_hex_is_hexlify (n : nat) (s : string) :
  String.length s = 2 * n ->
  forallb is_lower_hex (list_ascii_of_string s) = true ->
  exists b, hexlify b = s /\ length b = n.
Proof.
  revert s. induction n as [| n IH]; intros s Hlen Hall.
  - destruct s; [| discriminate]. exists []. split; reflexivity.
  - destruct s as [| c [| d s]]; [cbn in Hlen; lia | cbn in Hlen; lia |].
    cbn [list_ascii_of_string forallb] in Hall.
    apply andb_prop in Hall as [Hc Hall]. apply andb_prop in Hall as [Hd Hall].
    destruct (lower_hex_is_hex_digit c Hc) as (t & Ht & ->).
    destruct (lower_hex_is_hex_digit d Hd) as (u & Hu & ->).
    destruct (IH s) as (b & Hb & Hn); [cbn in Hlen; lia | exact Hall |].
    destruct (byte_of_digits t u Ht Hu) as (x & _ & Hq & Hr).
    exists (x :: b). split; [| cbn; lia].
    cbn [hexlify]. rewrite Hq, Hr, Hb. reflexivity.
Qed.

(** The canonical strings are exactly the renderings of twelve bytes. *)
Lemma canonical_iff_rendering (s : string) :
  is_canonical s = true <-> exists b, length b = 12 /\ hexlify b = s.
Proof.
  split.
  - unfold is_canonical. intros H. apply andb_prop in H as [Hlen Hall].
    apply Nat.eqb_eq in Hlen.
    destruct (lower_hex_is_hexlify 12 s Hlen Hall) as (b & Hb & Hn).
    exists b. split; assumption.
  - intros (b & Hn & <-). apply hexlify_canonical, Hn.
Qed.

(** ** The identifier adapter *)

(** bson's constructor raises [InvalidId] or [TypeError] only, so the
    function validator never turns its failure into a report. *)
Lemma convert_err_new (cls : PyClass) (generated : list byte) (x : Value) :
  convert_err (new cls generated x)
  = match new cls generated x with
    | Returned v => Valid (v, Exact)
    | Raised e => InternalErr e
    end.
Proof.
  unfold new, py_bind, ObjectId__init__.
  destruct x as [| | z | s | b | c b]; try reflexivity.
  - destruct (Nat.eqb (py_len s) 24); [destruct (fromhex s) |]; reflexivity.
  - destruct (Nat.eqb (length b) 12); reflexivity.
Qed.

(** Validation from Python: an identifier is an exact match of the first
    choice and is returned as it is; anything else goes to the
    constructor. *)
Lemma validate_ObjectId_python (generated : list byte) (x : Value) :
  validate PythonMode (ObjectId_schema generated) x
  = if isinstance x cls__ObjectId then Valid x
    else match new cls_ObjectId generated x with
         | Returned v => Valid v
         | Raised e => InternalErr e
         end.
Proof.
  unfold validate.
  cbn [ObjectId_schema ObjectId.__get_pydantic_core_schema__ validator
       validate_is_instance].
  destruct (isinstance x cls__ObjectId); [reflexivity |].
  rewrite convert_err_new.
  destruct (new cls_ObjectId generated x); reflexivity.
Qed.

(** Whatever Python-mode validation or the constructor returns is an
    identifier. *)
Lemma new_returns_identifier (generated : list byte) (x v : Value) :
  new cls_ObjectId generated x = Returned v -> isinstance v cls__ObjectId = true.
Proof.
  unfold new, py_bind. destruct (ObjectId__init__ generated x); [| discriminate].
  intros [= <-]. reflexivity.
Qed.

Lemma validate_python_returns_identifier (generated : list byte) (x v : Value) :
  validate_python (ObjectId_schema generated) x = Returned v ->
  isinstance v cls__ObjectId = true.
Proof.
  unfold validate_python. rewrite validate_ObjectId_python.
  destruct (isinstance x cls__ObjectId) eqn:E.
  - intros [= <-]. exact E.
  - destruct (new cls_ObjectId generated x) eqn:N; [| discriminate].
    intros [= <-]. eapply new_returns_identifier, N.
Qed.

(** C4, as amended: a string that bson's constructor rejects (it has not 24
    characters, or [bytes.fromhex] cannot read it) is rejected by the
    adapter, called directly or validating a field from Python, and the
    failure is bson's [InvalidId] itself, not a [ValidationError]. *)
Theorem rejected_string_raises_InvalidId (generated : list byte) (s : string) :
  py_len s <> 24 \/ fromhex s = None ->
  new cls_ObjectId generated (VStr s) = Raised (InvalidId (VStr s))
  /\ validate_python (ObjectId_schema generated) (VStr s)
     = Raised (InvalidId (VStr s)).
Proof.
  intros H.
  assert (new cls_ObjectId generated (VStr s) = Raised (InvalidId (VStr s))) as E.
  { unfold new, py_bind, ObjectId__init__.
    destruct (Nat.eqb_spec (py_len s) 24) as [Hl | Hl]; [| reflexivity].
    destruct H as [H | H]; [contradiction | rewrite H; reflexivity]. }
  split; [exact E |].
  unfold validate_python. rewrite validate_ObjectId_python, E. reflexivity.
Qed.

Lemma rejected_string_raises_InvalidId_witness :
  validate_python (ObjectId_schema []) (VStr "not-an-object-id")
  = Raised (InvalidId (VStr "not-an-object-id")).
Proof.
  apply (rejected_string_raises_InvalidId [] "not-an-object-id").
  left. vm_compute. discriminate.
Defined.

(** C4 as stated fails: 24 upper-case digits are not the canonical form of
    any identifier, and the adapter accepts them. *)
Lemma noncanonical_string_accepted :
  is_canonical "ABCDEFABCDEFABCDEFABCDEF" = false
  /\ new cls_ObjectId [] (VStr "ABCDEFABCDEFABCDEFABCDEF")
     = Returned (VObjectId cls_ObjectId
                   [xab; xcd; xef; xab; xcd; xef; xab; xcd; xef; xab; xcd; xef])
  /\ validate_python (ObjectId_schema []) (VStr "ABCDEFABCDEFABCDEFABCDEF")
     = Returned (VObjectId cls_ObjectId
                   [xab; xcd; xef; xab; xcd; xef; xab; xcd; xef; xab; xcd; xef])
  /\ str (VObjectId cls_ObjectId
            [xab; xcd; xef; xab; xcd; xef; xab; xcd; xef; xab; xcd; xef])
     = "abcdefabcdefabcdefabcdef".
Proof. repeat split. Qed.

(** [bytes.fromhex] fails on a string that holds a character which is
    neither a hexadecimal digit nor white space. *)
Lemma fromhex_bad_character (s : string) (c : ascii) :
  In c (list_ascii_of_string s) ->
  digit_value c = None -> Py_ISSPACE c = false ->
  fromhex s = None.
Proof.
  intros Hin Hd Hs.
  remember (String.length s) as n eqn:Hn.
  revert s Hn Hin. induction n as [n IH] using lt_wf_ind. intros s Hn Hin.
  destruct s as [| a s]; [destruct Hin |].
  cbn [list_ascii_of_string] in Hin. cbn [fromhex].
  destruct (Py_ISSPACE a) eqn:Ea.
  - destruct Hin as [-> | Hin]; [congruence |].
    apply (IH (String.length s)); [cbn in Hn; lia | reflexivity | exact Hin].
  - destruct (digit_value a) as [top |] eqn:Et; [| reflexivity].
    destruct Hin as [-> | Hin]; [congruence |].
    destruct s as [| d s]; [reflexivity |].
    destruct (digit_value d) as [bot |] eqn:Eb; [| reflexivity].
    destruct Hin as [-> | Hin]; [congruence |].
    rewrite (IH (String.length s) ltac:(cbn in Hn; lia) s eq_refl Hin).
    destruct (Byte.of_N (16 * top + bot)); reflexivity.
Qed.

(** A rejected string is never canonical. *)
Lemma rejected_not_canonical (s : string) :
  py_len s <> 24 \/ fromhex s = None -> is_canonical s = false.
Proof.
  intros H. destruct (is_canonical s) eqn:E; [| reflexivity].
  apply canonical_iff_rendering in E as (b & Hn & <-).
  rewrite py_len_hexlify, fromhex_hexlify, Hn in H.
  destruct H as [H | H]; [contradiction H; reflexivity | discriminate].
Qed.

(** C5: validating a field of the adapter type from JSON accepts every
    string as it is, also one that Python-mode validation rejects. *)
Theorem json_mode_accepts_every_string (generated : list byte) (s : string) :
  validate_json (ObjectId_schema generated) (VStr s) = Returned (VStr s)
  /\ validate_json (ObjectId_schema generated) (VStr "not-an-object-id")
     = Returned (VStr "not-an-object-id")
  /\ validate_python (ObjectId_schema generated) (VStr "not-an-object-id")
     = Raised (InvalidId (VStr "not-an-object-id")).
Proof.
  repeat split.
Qed.

(** C6: a canonical string is accepted, by the constructor and by
    Python-mode validation alike, and the identifier made from it renders,
    with [str] and in JSON, as that very string. *)
Theorem canonical_string_round_trip (generated : list byte) (s : string) :
  is_canonical s = true ->
  exists binary,
    length binary = 12
    /\ new cls_ObjectId generated (VStr s) = Returned (VObjectId cls_ObjectId binary)
    /\ validate_python (ObjectId_schema generated) (VStr s)
       = Returned (VObjectId cls_ObjectId binary)
    /\ str (VObjectId cls_ObjectId binary) = s
    /\ serialize JsonMode (ObjectId_schema generated) (VObjectId cls_ObjectId binary)
       = Returned (VStr s).
Proof.
  intros H. apply canonical_iff_rendering in H as (b & Hn & <-).
  exists b.
  assert (new cls_ObjectId generated (VStr (hexlify b))
          = Returned (VObjectId cls_ObjectId b)) as E.
  { unfold new, py_bind, ObjectId__init__.
    rewrite py_len_hexlify, Hn, fromhex_hexlify. reflexivity. }
  repeat split; try assumption; try reflexivity.
  unfold validate_python. rewrite validate_ObjectId_python, E. reflexivity.
Qed.

Lemma canonical_string_round_trip_witness :
  exists binary,
    length binary = 12
    /\ new cls_ObjectId [] (VStr "65f0a1b2c3d4e5f601234567")
       = Returned (VObjectId cls_ObjectId binary)
    /\ validate_python (ObjectId_schema []) (VStr "65f0a1b2c3d4e5f601234567")
       = Returned (VObjectId cls_ObjectId binary)
    /\ str (VObjectId cls_ObjectId binary) = "65f0a1b2c3d4e5f601234567"
    /\ serialize JsonMode (ObjectId_schema []) (VObjectId cls_ObjectId binary)
       = Returned (VStr "65f0a1b2c3d4e5f601234567").
Proof.
  apply (canonical_string_round_trip [] "65f0a1b2c3d4e5f601234567").
  reflexivity.
Defined.

(** C7: a value of the native identifier type (the adapter's instances
    among them) passes validation unchanged, hence equal to itself; the
    constructor called on it makes an identifier equal to it. *)
Theorem native_identifier_accepted_unchanged (generated : list byte) (v : Value) :
  isinstance v cls__ObjectId = true ->
  validate_python (ObjectId_schema generated) v = Returned v
  /\ ObjectId__eq__ v v = true
  /\ exists w, new cls_ObjectId generated v = Returned w
               /\ ObjectId__eq__ w v = true.
Proof.
  intros H. split; [| split].
  - unfold validate_python. rewrite validate_ObjectId_python, H. reflexivity.
  - destruct v as [| | z | s | b | c b]; try discriminate.
    cbn. apply bool_decide_eq_true. reflexivity.
  - destruct v as [| | z | s | b | c b]; try discriminate.
    eexists. split; [reflexivity |].
    cbn. apply bool_decide_eq_true. reflexivity.
Qed.

Lemma native_identifier_accepted_unchanged_witness :
  validate_python (ObjectId_schema [])
    (VObjectId cls__ObjectId [x65; xf0; xa1; xb2; xc3; xd4; xe5; xf6; x01; x23; x45; x67])
  = Returned
      (VObjectId cls__ObjectId [x65; xf0; xa1; xb2; xc3; xd4; xe5; xf6; x01; x23; x45; x67]).
Proof.
  apply (native_identifier_accepted_unchanged []
           (VObjectId cls__ObjectId
              [x65; xf0; xa1; xb2; xc3; xd4; xe5; xf6; x01; x23; x45; x67])).
  reflexivity.
Defined.

(** In JSON mode the serializer of the adapter's schema writes [str(x)],
    a string, for any value at all. *)
Lemma serialize_json_is_str (generated : list byte) (v : Value) :
  serialize JsonMode (ObjectId_schema generated) v = Returned (VStr (str v)).
Proof. reflexivity. Qed.

(** Outside JSON the value is left as it is. *)
Lemma serialize_python_unchanged (generated : list byte) (v : Value) :
  serialize PythonMode (ObjectId_schema generated) v = Returned v.
Proof. reflexivity. Qed.

(** C8: an identifier, of either class and whatever made it (by
    [new_returns_identifier] and [validate_python_returns_identifier] the
    constructor and the validation make nothing else), is written to JSON
    as the string [__str__] renders, the canonical one for its twelve
    bytes: a [str], never the identifier. *)
Theorem identifier_serialized_as_string (generated : list byte) (v : Value) :
  isinstance v cls__ObjectId = true ->
  exists cls binary,
    v = VObjectId cls binary
    /\ serialize JsonMode (ObjectId_schema generated) v
       = Returned (VStr (ObjectId__str__ binary))
    /\ isinstance (VStr (ObjectId__str__ binary)) cls_str = true
    /\ isinstance (VStr (ObjectId__str__ binary)) cls__ObjectId = false
    /\ (length binary = 12 -> is_canonical (ObjectId__str__ binary) = true).
Proof.
  intros H. destruct v as [| | z | s | b | c b]; try discriminate.
  exists c, b. repeat split. apply hexlify_canonical.
Qed.

Lemma identifier_serialized_as_string_witness :
  serialize JsonMode (ObjectId_schema [])
    (VObjectId cls_ObjectId
       [x65; xf0; xa1; xb2; xc3; xd4; xe5; xf6; x01; x23; x45; x67])
  = Returned (VStr "65f0a1b2c3d4e5f601234567").
Proof.
  destruct (identifier_serialized_as_string []
              (VObjectId cls_ObjectId
                 [x65; xf0; xa1; xb2; xc3; xd4; xe5; xf6; x01; x23; x45; x67])
              eq_refl)
    as (cls & binary & [= <- <-] & Hs & _).
  exact Hs.
Defined.

(** ** Models: the loop over the fields *)

Section Fields.

Context (mode : Mode) (data : gmap string Value).

(** A model is returned only if no report was gathered. *)
Lemma validate_fields_Valid_no_errors fields model_dict errors self :
  validate_fields mode fields data model_dict errors = Valid self ->
  errors = [].
Proof.
  revert model_dict errors.
  induction fields as [| [n f] rest IH]; intros model_dict errors; cbn.
  - destruct errors; [reflexivity | discriminate].
  - destruct (validate_field mode data n f) as [v | lines | e]; intros H.
    + eapply IH, H.
    + apply IH in H. apply app_eq_nil in H as [H _]. exact H.
    + discriminate.
Qed.

(** The loop writes under the declared names only. *)
Lemma validate_fields_lookup_other fields model_dict errors self name :
  validate_fields mode fields data model_dict errors = Valid self ->
  name ∉ fields.*1 ->
  self !! name = model_dict !! name.
Proof.
  revert model_dict errors.
  induction fields as [| [n f] rest IH]; intros model_dict errors; cbn.
  - destruct errors; [| discriminate]. intros [= <-] _. reflexivity.
  - intros H Hn. apply not_elem_of_cons in Hn as [Hne Hn].
    destruct (validate_field mode data n f) as [v | lines | e]; [| | discriminate].
    + rewrite (IH _ _ H Hn). apply lookup_insert_ne. congruence.
    + apply (IH _ _ H Hn).
Qed.

(** A field that validates is stored under its declared name. *)
Lemma validate_fields_lookup fields model_dict errors self name f v :
  NoDup fields.*1 ->
  validate_fields mode fields data model_dict errors = Valid self ->
  (name, f) ∈ fields ->
  validate_field mode data name f = Valid v ->
  self !! name = Some v.
Proof.
  revert model_dict errors.
  induction fields as [| [n0 f0] rest IH]; intros model_dict errors Hnd H Hin Hv.
  - apply elem_of_nil in Hin as [].
  - cbn in Hnd. apply NoDup_cons in Hnd as [Hfresh Hnd].
    cbn in H. apply elem_of_cons in Hin as [[= <- <-] | Hin].
    + rewrite Hv in H.
      rewrite (validate_fields_lookup_other _ _ _ _ _ H Hfresh).
      apply lookup_insert_eq.
    + destruct (validate_field mode data n0 f0) as [v0 | lines | e];
        [| | discriminate]; eapply IH; eassumption.
Qed.

(** If every field validates, a model is returned. *)
Lemma validate_fields_success fields model_dict :
  (forall n f, (n, f) ∈ fields -> exists v, validate_field mode data n f = Valid v) ->
  exists self, validate_fields mode fields data model_dict [] = Valid self.
Proof.
  revert model_dict.
  induction fields as [| [n f] rest IH]; intros model_dict Hall; cbn.
  - eexists; reflexivity.
  - destruct (Hall n f) as [v ->]; [apply list_elem_of_here |].
    apply IH. intros n' f' Hin. apply Hall. apply list_elem_of_further, Hin.
Qed.

Lemma fails_with_further fields x e0 r :
  fails_with mode data fields e0 r -> fails_with mode data (x :: fields) e0 r.
Proof.
  intros [H | (e & n & f & Hin & Hv & Hr)]; [left; exact H | right].
  exists e, n, f. split; [apply list_elem_of_further, Hin | split; assumption].
Qed.

Lemma validate_fields_keeps_errors fields model_dict errors e0 :
  e0 ∈ errors ->
  fails_with mode data fields e0 (validate_fields mode fields data model_dict errors).
Proof.
  revert model_dict errors.
  induction fields as [| [n f] rest IH]; intros model_dict errors Hin; cbn.
  - left. destruct errors as [| e es]; [apply elem_of_nil in Hin as [] |].
    eexists; split; [reflexivity | exact Hin].
  - destruct (validate_field mode data n f) as [v | lines | e] eqn:E.
    + apply fails_with_further, IH, Hin.
    + apply fails_with_further, IH. apply elem_of_app. left. exact Hin.
    + right. exists e, n, f.
      split; [apply list_elem_of_here | split; [exact E | reflexivity]].
Qed.

(** A field whose validation reports [e0] makes the loop fail. *)
Lemma validate_fields_failure fields model_dict errors name f lines e0 :
  (name, f) ∈ fields ->
  validate_field mode data name f = LineErrors lines ->
  e0 ∈ lines ->
  fails_with mode data fields e0 (validate_fields mode fields data model_dict errors).
Proof.
  revert model_dict errors.
  induction fields as [| [n0 f0] rest IH]; intros model_dict errors Hin Hv He.
  - apply elem_of_nil in Hin as [].
  - cbn. apply elem_of_cons in Hin as [[= <- <-] | Hin].
    + rewrite Hv. apply fails_with_further, validate_fields_keeps_errors.
      apply elem_of_app. right. exact He.
    + destruct (validate_field mode data n0 f0) as [v0 | lines0 | e] eqn:E.
      * eapply fails_with_further, IH; eassumption.
      * eapply fails_with_further, IH; eassumption.
      * right. exists e, n0, f0.
        split; [apply list_elem_of_here | split; [exact E | reflexivity]].
Qed.

End Fields.

(** Under distinct names, a name is declared once. *)
Lemma declared_once (fields : list (string * FieldDecl)) name f f' :
  NoDup fields.*1 -> (name, f) ∈ fields -> (name, f') ∈ fields -> f = f'.
Proof.
  induction fields as [| [n0 f0] rest IH]; intros Hnd H H'.
  - apply elem_of_nil in H as [].
  - cbn in Hnd. apply NoDup_cons in Hnd as [Hfresh Hnd].
    assert (forall g, (name, g) ∈ rest -> name ∈ rest.*1) as Hfst.
    { intros g Hg. apply (list_elem_of_fmap_2' fst _ (name, g)); [exact Hg | reflexivity]. }
    apply elem_of_cons in H as [[= <- <-] | H];
      apply elem_of_cons in H' as [[= ?] | H']; subst.
    + reflexivity.
    + destruct Hfresh. eapply Hfst, H'.
    + destruct Hfresh. eapply Hfst, H.
    + apply IH; assumption.
Qed.

Section Dump.

Context (mode : Mode) (by_alias : bool) (self : gmap string Value).

(** The loop of the serializer writes under the fields' keys only. *)
Lemma serialize_fields_lookup_other fields out res key :
  serialize_fields mode by_alias fields self out = Returned res ->
  (forall n f, (n, f) ∈ fields ->
               serialization_key by_alias n (field_info f) <> key) ->
  res !! key = out !! key.
Proof.
  revert out.
  induction fields as [| [n f] rest IH]; intros out H Hkeys; cbn in H.
  - injection H as <-. reflexivity.
  - assert (forall n' f', (n', f') ∈ rest ->
              serialization_key by_alias n' (field_info f') <> key) as Hrest.
    { intros n' f' Hin. apply Hkeys, list_elem_of_further, Hin. }
    destruct (self !! n) as [v |]; [| apply (IH _ H Hrest)].
    destruct (serialize mode (annotation f) v) as [v' | e]; [| discriminate].
    cbn in H. rewrite (IH _ H Hrest).
    apply lookup_insert_ne, Hkeys, list_elem_of_here.
Qed.

(** A field whose key no other field shares is written under it. *)
Lemma serialize_fields_lookup fields out res name f v :
  NoDup fields.*1 ->
  serialize_fields mode by_alias fields self out = Returned res ->
  (name, f) ∈ fields ->
  self !! name = Some v ->
  (forall n' f', (n', f') ∈ fields -> n' <> name ->
     serialization_key by_alias n' (field_info f')
     <> serialization_key by_alias name (field_info f)) ->
  exists v', serialize mode (annotation f) v = Returned v'
             /\ res !! serialization_key by_alias name (field_info f) = Some v'.
Proof.
  revert out.
  induction fields as [| [n0 f0] rest IH]; intros out Hnd H Hin Hv Hkeys.
  - apply elem_of_nil in Hin as [].
  - cbn in Hnd. apply NoDup_cons in Hnd as [Hfresh Hnd]. cbn in H.
    apply elem_of_cons in Hin as [[= <- <-] | Hin].
    + rewrite Hv in H.
      destruct (serialize mode (annotation f) v) as [v' | e]; [| discriminate].
      cbn in H. exists v'. split; [reflexivity |].
      rewrite (serialize_fields_lookup_other _ _ _ _ H); [apply lookup_insert_eq |].
      intros n' f' Hin'. apply Hkeys; [apply list_elem_of_further, Hin' |].
      intros ->. apply Hfresh.
      apply (list_elem_of_fmap_2' fst _ (name, f')); [exact Hin' | reflexivity].
    + assert (forall n' f', (n', f') ∈ rest -> n' <> name ->
                serialization_key by_alias n' (field_info f')
                <> serialization_key by_alias name (field_info f)) as Hrest.
      { intros n' f' Hin'. apply Hkeys, list_elem_of_further, Hin'. }
      destruct (self !! n0) as [v0 |]; [| eapply IH; eassumption].
      destruct (serialize mode (annotation f0) v0) as [v0' | e]; [| discriminate].
      cbn in H. eapply IH; eassumption.
Qed.

End Dump.

(** ** Schemas: external names *)

(** C1: in a class deriving from [Document], take a field declared
    [name: T = Field(..., db_name=X)] with [X] other than [name].  From a
    mapping that holds an acceptable value under [X], construction
    succeeds, the other fields permitting, and the attribute [name] holds
    the validated value.  From a mapping without the key [X], one that
    holds the declared name instead, construction fails: pydantic's
    [ValidationError] reports the field missing at [X], unless the
    validator of another field raised first. *)
Theorem aliased_field_is_read_under_its_alias
    (cls : DocumentClass) (name : string) (T : CoreSchema) (info : FieldInfo)
    (X : string) (description : option string) :
  NoDup (model_fields cls).*1 ->
  (name, {| annotation := T; field_info := info |}) ∈ model_fields cls ->
  Field VEllipsis (Some X) description None None = Returned info ->
  X <> name ->
  (forall (data : gmap string Value) v v',
      data !! X = Some v ->
      validate PythonMode T v = Valid v' ->
      (forall n f, (n, f) ∈ model_fields cls -> n <> name ->
                   exists w, validate_field PythonMode data n f = Valid w) ->
      exists self, model_validate cls data = Returned self
                   /\ self !! name = Some v')
  /\ (forall (data : gmap string Value),
        data !! X = None ->
        (exists errs, model_validate cls data = Raised (ValidationError errs)
                      /\ mkLineError missing [X] ∈ errs)
        \/ (exists e n f, (n, f) ∈ model_fields cls
                          /\ validate_field PythonMode data n f = InternalErr e
                          /\ model_validate cls data = Raised e)).
Proof.
  intros Hnd Hin [= <-] Hne. split.
  - intros data v v' HX Hv Hothers.
    assert (validate_field PythonMode data name
              {| annotation := T;
                 field_info := PydanticField VEllipsis (Some X) description |}
            = Valid v') as Hf.
    { unfold validate_field. cbn. rewrite HX, Hv. reflexivity. }
    destruct (validate_fields_success PythonMode data (model_fields cls) ∅)
      as [self Hself].
    { intros n f Hnf. destruct (decide (n = name)) as [-> | Hn].
      - rewrite (declared_once _ _ _ _ Hnd Hnf Hin). eexists. exact Hf.
      - apply Hothers; assumption. }
    exists self. split.
    + unfold model_validate. rewrite Hself. reflexivity.
    + eapply validate_fields_lookup; eassumption.
  - intros data HX.
    assert (validate_field PythonMode data name
              {| annotation := T;
                 field_info := PydanticField VEllipsis (Some X) description |}
            = LineErrors [mkLineError missing [X]]) as Hf.
    { unfold validate_field. cbn. rewrite HX. reflexivity. }
    destruct (validate_fields_failure PythonMode data (model_fields cls) ∅ []
                _ _ _ (mkLineError missing [X]) Hin Hf)
      as [(es & Hes & He) | (e & n & f & Hnf & Hv & Hr)].
    + apply list_elem_of_here.
    + left. exists es. unfold model_validate. rewrite Hes. split; [reflexivity | exact He].
    + right. exists e, n, f. unfold model_validate. rewrite Hr.
      split; [exact Hnf | split; [exact Hv | reflexivity]].
Qed.

Lemma Customer_names_distinct : NoDup (model_fields Customer).*1.
Proof.
  cbn. apply NoDup_cons. split; [| apply NoDup_singleton].
  intros H. apply list_elem_of_singleton in H. discriminate.
Defined.

Lemma aliased_field_is_read_under_its_alias_witness :
  (exists self,
      model_validate Customer {[ "id" := VInt 42; "email" := VStr "a@b.com" ]}
      = Returned self
      /\ self !! "customer_id" = Some (VInt 42))
  /\ ((exists errs,
          model_validate Customer
            {[ "customer_id" := VInt 42; "email" := VStr "a@b.com" ]}
          = Raised (ValidationError errs)
          /\ mkLineError missing ["id"] ∈ errs)
      \/ (exists e n f,
             (n, f) ∈ model_fields Customer
             /\ validate_field PythonMode
                  {[ "customer_id" := VInt 42; "email" := VStr "a@b.com" ]} n f
                = InternalErr e
             /\ model_validate Customer
                  {[ "customer_id" := VInt 42; "email" := VStr "a@b.com" ]}
                = Raised e)).
Proof.
  destruct (aliased_field_is_read_under_its_alias Customer "customer_id" any_schema
              (PydanticField VEllipsis (Some "id") (Some "Unique customer identifier"))
              "id" (Some "Unique customer identifier"))
    as [Hok Hbad].
  - exact Customer_names_distinct.
  - apply list_elem_of_here.
  - reflexivity.
  - discriminate.
  - split.
    + apply (Hok _ (VInt 42)); [reflexivity | reflexivity |].
      intros n f Hin Hn. cbn in Hin.
      apply elem_of_cons in Hin as [[= -> _] | Hin]; [contradiction Hn; reflexivity |].
      apply list_elem_of_singleton in Hin as [= -> ->].
      eexists. reflexivity.
    + apply Hbad. reflexivity.
Defined.

(** With pydantic's defaults the run on [Customer] gives exactly this. *)
Example Customer_from_database_names :
  model_validate Customer {[ "id" := VInt 42; "email" := VStr "a@b.com" ]}
  = Returned {[ "customer_id" := VInt 42; "email" := VStr "a@b.com" ]}.
Proof. vm_compute. reflexivity. Qed.

Example Customer_from_declared_names :
  model_validate Customer {[ "customer_id" := VInt 42; "email" := VStr "a@b.com" ]}
  = Raised (ValidationError [mkLineError missing ["id"]]).
Proof. vm_compute. reflexivity. Qed.

Example Customer_to_database_names :
  model_dump Customer JsonMode true {[ "customer_id" := VInt 42; "email" := VStr "a@b.com" ]}
  = Returned {[ "id" := VInt 42; "email" := VStr "a@b.com" ]}.
Proof. vm_compute. reflexivity. Qed.

(** C9: in a class deriving from [Document], a field declared with [Field]
    and no [db_name] is known outside under its declared name: that is the
    key validation looks up and the key [model_dump] writes, with
    [by_alias] or without; construction takes the value found under the
    declared name, and the dump holds the field under it (with [by_alias],
    as long as no other field is aliased to that very name). *)
Theorem unaliased_field_keeps_its_name
    (cls : DocumentClass) (name : string) (T : CoreSchema) (info : FieldInfo)
    (default : Value) (description : option string) :
  NoDup (model_fields cls).*1 ->
  (name, {| annotation := T; field_info := info |}) ∈ model_fields cls ->
  Field default None description None None = Returned info ->
  lookup_key name info = name
  /\ (forall by_alias, serialization_key by_alias name info = name)
  /\ (forall (data self : gmap string Value) v v',
        model_validate cls data = Returned self ->
        data !! name = Some v ->
        validate PythonMode T v = Valid v' ->
        self !! name = Some v')
  /\ (forall mode by_alias (self out : gmap string Value) v,
        model_dump cls mode by_alias self = Returned out ->
        self !! name = Some v ->
        (by_alias = true ->
         forall n f, (n, f) ∈ model_fields cls -> n <> name ->
                     serialization_alias (field_info f) <> Some name) ->
        exists v', serialize mode T v = Returned v' /\ out !! name = Some v').
Proof.
  intros Hnd Hin [= <-].
  assert (forall by_alias,
            serialization_key by_alias name (PydanticField default None description)
            = name) as Hkey.
  { intros []; reflexivity. }
  split; [reflexivity |]. split; [exact Hkey |]. split.
  - intros data self v v' Hself Hv HT.
    unfold model_validate in Hself.
    destruct (validate_fields PythonMode (model_fields cls) data ∅ [])
      as [self' | es | e] eqn:E; try discriminate.
    injection Hself as ->.
    eapply validate_fields_lookup; [exact Hnd | exact E | exact Hin |].
    unfold validate_field. cbn. rewrite Hv, HT. reflexivity.
  - intros mode by_alias self out v Hout Hv Halias.
    unfold model_dump in Hout.
    destruct (serialize_fields_lookup mode by_alias self (model_fields cls) ∅ out
                name _ v Hnd Hout Hin Hv) as (v' & Hs & Hl).
    + cbn [field_info]. rewrite Hkey. intros n f Hnf Hn.
      unfold serialization_key. destruct by_alias; [| exact Hn].
      specialize (Halias eq_refl n f Hnf Hn).
      destruct (serialization_alias (field_info f)); congruence.
    + exists v'. cbn [field_info annotation] in Hs, Hl. rewrite Hkey in Hl.
      split; assumption.
Qed.

Lemma unaliased_field_keeps_its_name_witness :
  lookup_key "email" (PydanticField VEllipsis None (Some "Customer email address"))
  = "email"
  /\ (forall by_alias,
        serialization_key by_alias "email"
          (PydanticField VEllipsis None (Some "Customer email address"))
        = "email")
  /\ (forall (data self : gmap string Value) v v',
        model_validate Customer data = Returned self ->
        data !! "email" = Some v ->
        validate PythonMode str_schema v = Valid v' ->
        self !! "email" = Some v')
  /\ (forall mode by_alias (self out : gmap string Value) v,
        model_dump Customer mode by_alias self = Returned out ->
        self !! "email" = Some v ->
        (by_alias = true ->
         forall n f, (n, f) ∈ model_fields Customer -> n <> "email" ->
                     serialization_alias (field_info f) <> Some "email") ->
        exists v', serialize mode str_schema v = Returned v'
                   /\ out !! "email" = Some v').
Proof.
  apply (unaliased_field_keeps_its_name Customer "email" str_schema
           (PydanticField VEllipsis None (Some "Customer email address"))
           VEllipsis (Some "Customer email address")).
  - exact Customer_names_distinct.
  - apply list_elem_of_further, list_elem_of_here.
  - reflexivity.
Defined.

(** The required marker matters: a field with an alias and a default of
    its own takes that default when the mapping holds the declared name
    only, and construction succeeds. *)
Example aliased_field_with_default :
  Field (VInt 0) (Some "id") None None None
  = Returned (PydanticField (VInt 0) (Some "id") None)
  /\ model_validate
       {| __collection__ := None; __table__ := None; __description__ := None;
          model_fields :=
            [ ("customer_id",
               {| annotation := any_schema;
                  field_info := PydanticField (VInt 0) (Some "id") None |}) ] |}
       {[ "customer_id" := VInt 42 ]}
     = Returned {[ "customer_id" := VInt 0 ]}.
Proof. split; [reflexivity | vm_compute; reflexivity]. Qed.

(** With a field of the adapter type, a JSON document is accepted with
    any string in it, and the same mapping from Python is not. *)
Example Order_json_versus_python :
  let Order :=
    {| __collection__ := Some "orders"; __table__ := None; __description__ := None;
       model_fields :=
         [ ("order_id",
            {| annotation := ObjectId_schema [];
               field_info := PydanticField VEllipsis (Some "_id") None |}) ] |} in
  model_validate_json Order {[ "_id" := VStr "not-an-object-id" ]}
  = Returned {[ "order_id" := VStr "not-an-object-id" ]}
  /\ model_validate Order {[ "_id" := VStr "not-an-object-id" ]}
     = Raised (InvalidId (VStr "not-an-object-id")).
Proof. split; vm_compute; reflexivity. Qed.

(** * Further properties *)

(** ** The field factory: when it returns *)

(** X1: [Field] returns a descriptor exactly when [examples] and [relation]
    are both [None], and the descriptor is then pydantic's, with [db_name]
    as its alias. *)
Theorem Field_returns_iff
    (default : Value) (db_name description : option string)
    (examples : option (list Value)) (relation : option Relation)
    (info : FieldInfo) :
  Field default db_name description examples relation = Returned info
  <-> examples = None /\ relation = None
      /\ info = PydanticField default db_name description.
Proof.
  unfold Field. destruct examples as [ex |], relation as [rel |]; split;
    try discriminate; try (intros (H1 & H2 & _); discriminate).
  - intros [= <-]. repeat split.
  - intros (_ & _ & ->). reflexivity.
Qed.

(** ** The identifier adapter: the inputs it takes from Python *)

(** X2: validation from Python never ends in pydantic's [ValidationError]:
    a string that fails raises bson's [InvalidId], and any other input
    that fails raises bson's [TypeError], which names the class of the
    input. *)
Theorem python_validation_failures (generated : list byte) (x : Value)
    (e : PyException) :
  validate_python (ObjectId_schema generated) x = Raised e ->
  (exists s, x = VStr s /\ e = InvalidId (VStr s)
             /\ (py_len s <> 24 \/ fromhex s = None))
  \/ ((forall s, x <> VStr s)
      /\ e = TypeError ("id must be an instance of (bytes, str, ObjectId), not "
                        ++ class_repr (type_of x))).
Proof.
  unfold validate_python. rewrite validate_ObjectId_python.
  destruct (isinstance x cls__ObjectId) eqn:Ei; [discriminate |].
  unfold new, py_bind, ObjectId__init__.
  destruct x as [| | z | s | b | c b]; try discriminate.
  - intros [= <-]. right. split; [discriminate | reflexivity].
  - intros [= <-]. right. split; [discriminate | reflexivity].
  - intros H. left. exists s. revert H.
    destruct (Nat.eqb_spec (py_len s) 24) as [Hl | Hl].
    + destruct (fromhex s) eqn:Ef; [discriminate |].
      intros [= <-]. repeat split. right. reflexivity.
    + intros [= <-]. repeat split. left. exact Hl.
  - destruct (Nat.eqb (length b) 12); [discriminate |].
    intros [= <-]. right. split; [discriminate | reflexivity].
Qed.

Lemma python_validation_failures_witness :
  (exists s, VInt 7 = VStr s /\ TypeError
       "id must be an instance of (bytes, str, ObjectId), not <class 'int'>"
       = InvalidId (VStr s)
     /\ (py_len s <> 24 \/ fromhex s = None))
  \/ ((forall s, VInt 7 <> VStr s)
      /\ TypeError "id must be an instance of (bytes, str, ObjectId), not <class 'int'>"
         = TypeError ("id must be an instance of (bytes, str, ObjectId), not "
                      ++ class_repr (type_of (VInt 7)))).
Proof.
  apply (python_validation_failures [] (VInt 7)). reflexivity.
Defined.

(** X3: a [bytes] of twelve bytes is accepted and becomes an identifier of
    the adapter class with those very bytes; a [bytes] of any other length
    raises [TypeError]. *)
Theorem bytes_accepted_iff_twelve (generated : list byte) (b : list byte) :
  validate_python (ObjectId_schema generated) (VBytes b)
  = if decide (length b = 12) then Returned (VObjectId cls_ObjectId b)
    else Raised (TypeError
           "id must be an instance of (bytes, str, ObjectId), not <class 'bytes'>").
Proof.
  unfold validate_python. rewrite validate_ObjectId_python.
  cbn [isinstance type_of issubclass PyClass_eqb].
  unfold new, py_bind, ObjectId__init__.
  destruct (Nat.eqb_spec (length b) 12) as [H | H];
    destruct (decide (length b = 12)); try contradiction; reflexivity.
Qed.

(** X4: from Python [None] is not refused: the constructor is called with
    it and makes up a new identifier, which validation returns; from JSON
    [null] is refused as not being a string. *)
Theorem None_validates_to_generated (generated : list byte) :
  validate_python (ObjectId_schema generated) VNone
  = Returned (VObjectId cls_ObjectId generated)
  /\ validate_json (ObjectId_schema generated) VNone
     = Raised (ValidationError [mkLineError string_type []]).
Proof. split; reflexivity. Qed.

(** X5: what validation from Python returns is the input itself when the
    input is an identifier (a plain bson identifier is not turned into the
    adapter's class), and a new object of the adapter's class otherwise;
    validating the result again changes nothing. *)
Theorem python_validation_result (generated : list byte) (x v : Value) :
  validate_python (ObjectId_schema generated) x = Returned v ->
  (if isinstance x cls__ObjectId then v = x else type_of v = cls_ObjectId)
  /\ validate_python (ObjectId_schema generated) v = Returned v.
Proof.
  intros H. pose proof (validate_python_returns_identifier _ _ _ H) as Hv.
  split.
  - revert H. unfold validate_python. rewrite validate_ObjectId_python.
    destruct (isinstance x cls__ObjectId); [intros [= <-]; reflexivity |].
    unfold new, py_bind.
    destruct (ObjectId__init__ generated x); [| discriminate].
    intros [= <-]. reflexivity.
  - unfold validate_python. rewrite validate_ObjectId_python, Hv. reflexivity.
Qed.

Lemma python_validation_result_witness :
  (if isinstance (VStr "65f0a1b2c3d4e5f601234567") cls__ObjectId
   then VObjectId cls_ObjectId
          [x65; xf0; xa1; xb2; xc3; xd4; xe5; xf6; x01; x23; x45; x67]
        = VStr "65f0a1b2c3d4e5f601234567"
   else type_of (VObjectId cls_ObjectId
                   [x65; xf0; xa1; xb2; xc3; xd4; xe5; xf6; x01; x23; x45; x67])
        = cls_ObjectId)
  /\ validate_python (ObjectId_schema [])
       (VObjectId cls_ObjectId
          [x65; xf0; xa1; xb2; xc3; xd4; xe5; xf6; x01; x23; x45; x67])
     = Returned (VObjectId cls_ObjectId
                   [x65; xf0; xa1; xb2; xc3; xd4; xe5; xf6; x01; x23; x45; x67]).
Proof.
  apply (python_validation_result [] (VStr "65f0a1b2c3d4e5f601234567")).
  reflexivity.
Defined.

(** ** The identifier adapter: round trips *)

(** X6: what the JSON serializer writes for an identifier is read back by
    validation from Python exactly when the identifier has twelve bytes:
    the result is then an identifier of the adapter class with the same
    bytes, equal to the first; with any other number of bytes the string
    written is refused with [InvalidId]. *)
Theorem identifier_json_round_trip (generated : list byte) (cls : PyClass)
    (binary : list byte) :
  serialize JsonMode (ObjectId_schema generated) (VObjectId cls binary)
  = Returned (VStr (hexlify binary))
  /\ validate_python (ObjectId_schema generated) (VStr (hexlify binary))
     = (if decide (length binary = 12)
        then Returned (VObjectId cls_ObjectId binary)
        else Raised (InvalidId (VStr (hexlify binary))))
  /\ ObjectId__eq__ (VObjectId cls_ObjectId binary) (VObjectId cls binary) = true.
Proof.
  split; [reflexivity |]. split.
  - unfold validate_python. rewrite validate_ObjectId_python.
    cbn [isinstance type_of issubclass PyClass_eqb].
    unfold new, py_bind, ObjectId__init__.
    rewrite py_len_hexlify, fromhex_hexlify.
    destruct (Nat.eqb_spec (2 * length binary) 24) as [H | H];
      destruct (decide (length binary = 12)); try reflexivity; lia.
  - cbn. apply bool_decide_eq_true. reflexivity.
Qed.

(** X7: a value that validation from JSON returns is the input itself, a
    [str] and no identifier, and the JSON serializer writes it back
    unchanged. *)
Theorem json_validation_result (generated : list byte) (x v : Value) :
  validate_json (ObjectId_schema generated) x = Returned v ->
  v = x
  /\ isinstance v cls_str = true
  /\ isinstance v cls__ObjectId = false
  /\ serialize JsonMode (ObjectId_schema generated) v = Returned v.
Proof.
  unfold validate_json, validate.
  cbn [ObjectId_schema ObjectId.__get_pydantic_core_schema__ validator].
  destruct x as [| | z | s | b | c b]; try discriminate.
  intros [= <-]. repeat split.
Qed.

Lemma json_validation_result_witness :
  VStr "anything" = VStr "anything"
  /\ isinstance (VStr "anything") cls_str = true
  /\ isinstance (VStr "anything") cls__ObjectId = false
  /\ serialize JsonMode (ObjectId_schema []) (VStr "anything")
     = Returned (VStr "anything").
Proof.
  apply (json_validation_result [] (VStr "anything")). reflexivity.
Defined.

(** A hexadecimal digit of either case: its value, and what the functions
    that read the string make of it. *)
Lemma hex_char_facts (c : ascii) :
  is_hex c = true ->
  exists t, (t < 16)%N
            /\ digit_value c = Some t
            /\ Py_ISSPACE c = false
            /\ is_continuation c = false
            /\ hex_digit t = lower_char c.
Proof.
  destruct c as [[] [] [] [] [] [] [] []]; intros H;
    try (vm_compute in H; discriminate H);
    eexists; (split; [| split; [vm_compute; reflexivity | repeat split]]);
    reflexivity.
Qed.

(** A string of [2 * n] hexadecimal digits is read by [bytes.fromhex] as
    [n] bytes, which render as the string in lower case. *)
Lemma fromhex_hex_digits (n : nat) (s : string) :
  String.length s = 2 * n ->
  forallb is_hex (list_ascii_of_string s) = true ->
  exists b, fromhex s = Some b /\ length b = n
            /\ hexlify b = lower s /\ py_len s = 2 * n.
Proof.
  revert s. induction n as [| n IH]; intros s Hlen Hall.
  - destruct s; [| discriminate]. exists []. repeat split.
  - destruct s as [| c [| d s]]; [cbn in Hlen; lia | cbn in Hlen; lia |].
    cbn [list_ascii_of_string forallb] in Hall.
    apply andb_prop in Hall as [Hc Hall]. apply andb_prop in Hall as [Hd Hall].
    destruct (hex_char_facts c Hc) as (t & Ht & Hvt & Hst & Hct & Hlt).
    destruct (hex_char_facts d Hd) as (u & Hu & Hvu & _ & Hcu & Hlu).
    destruct (IH s) as (b & Hb & Hn & Hr & Hp); [cbn in Hlen; lia | exact Hall |].
    destruct (byte_of_digits t u Ht Hu) as (x & Hx & Hq & Hm).
    exists (x :: b). cbn [fromhex py_len hexlify lower length].
    rewrite Hst, Hvt, Hvu, Hx, Hb, Hct, Hcu, Hq, Hm, Hlt, Hlu, Hr, Hp, Hn.
    repeat split. lia.
Qed.

(** X8: 24 hexadecimal digits of either case are accepted, make an
    identifier of twelve bytes, and are rendered in lower case: the round
    trip of a string is exact up to the case of its letters. *)
Theorem hex_string_rendered_in_lower_case (generated : list byte) (s : string) :
  String.length s = 24 ->
  forallb is_hex (list_ascii_of_string s) = true ->
  exists binary,
    length binary = 12
    /\ validate_python (ObjectId_schema generated) (VStr s)
       = Returned (VObjectId cls_ObjectId binary)
    /\ str (VObjectId cls_ObjectId binary) = lower s
    /\ serialize JsonMode (ObjectId_schema generated) (VObjectId cls_ObjectId binary)
       = Returned (VStr (lower s)).
Proof.
  intros Hlen Hall.
  destruct (fromhex_hex_digits 12 s Hlen Hall) as (b & Hb & Hn & Hr & Hp).
  exists b. split; [exact Hn |].
  split; [| split; [| rewrite serialize_json_is_str];
              cbn [str]; unfold ObjectId__str__; rewrite Hr; reflexivity].
  unfold validate_python. rewrite validate_ObjectId_python.
  cbn [isinstance type_of issubclass PyClass_eqb].
  unfold new, py_bind, ObjectId__init__. rewrite Hp, Hb. reflexivity.
Qed.

Lemma hex_string_rendered_in_lower_case_witness :
  exists binary,
    length binary = 12
    /\ validate_python (ObjectId_schema []) (VStr "65F0a1B2c3D4e5F601234567")
       = Returned (VObjectId cls_ObjectId binary)
    /\ str (VObjectId cls_ObjectId binary) = lower "65F0a1B2c3D4e5F601234567"
    /\ serialize JsonMode (ObjectId_schema []) (VObjectId cls_ObjectId binary)
       = Returned (VStr (lower "65F0a1B2c3D4e5F601234567")).
Proof.
  apply (hex_string_rendered_in_lower_case [] "65F0a1B2c3D4e5F601234567");
    reflexivity.
Defined.

Example lower_mixed : lower "65F0a1B2c3D4e5F601234567" = "65f0a1b2c3d4e5f601234567".
Proof. reflexivity. Qed.

(** ** Schemas: defaults, missing fields, ignored keys *)

Lemma Product_names_distinct : NoDup (model_fields Product).*1.
Proof.
  cbn. apply NoDup_cons. split.
  - intros H. apply elem_of_cons in H as [H | H]; [discriminate |].
    apply list_elem_of_singleton in H. discriminate.
  - apply NoDup_cons. split; [| apply NoDup_singleton].
    intros H. apply list_elem_of_singleton in H. discriminate.
Defined.

(** X9: a field declared with a default other than [...] takes it when the
    mapping has no value under the field's external name, and the default
    is stored as it is, not validated against the field's type. *)
Theorem default_taken_when_key_absent
    (cls : DocumentClass) (name : string) (T : CoreSchema) (info : FieldInfo)
    (default : Value) (db_name description : option string)
    (data : gmap string Value) :
  NoDup (model_fields cls).*1 ->
  (name, {| annotation := T; field_info := info |}) ∈ model_fields cls ->
  Field default db_name description None None = Returned info ->
  default <> VEllipsis ->
  data !! lookup_key name info = None ->
  (forall n f, (n, f) ∈ model_fields cls -> n <> name ->
               exists w, validate_field PythonMode data n f = Valid w) ->
  exists self, model_validate cls data = Returned self
               /\ self !! name = Some default.
Proof.
  intros Hnd Hin [= <-] Hd Hkey Hothers.
  assert (validate_field PythonMode data name
            {| annotation := T;
               field_info := PydanticField default db_name description |}
          = Valid default) as Hf.
  { unfold validate_field. cbn [field_info]. rewrite Hkey.
    destruct default; try reflexivity. contradiction Hd; reflexivity. }
  destruct (validate_fields_success PythonMode data (model_fields cls) ∅)
    as [self Hself].
  { intros n f Hnf. destruct (decide (n = name)) as [-> | Hn].
    - rewrite (declared_once _ _ _ _ Hnd Hnf Hin). eexists. exact Hf.
    - apply Hothers; assumption. }
  exists self. split.
  - unfold model_validate. rewrite Hself. reflexivity.
  - eapply validate_fields_lookup; eassumption.
Qed.

Lemma default_taken_when_key_absent_witness :
  exists self,
    model_validate Product
      {[ "_id" := VStr "65f0a1b2c3d4e5f601234567"; "label" := VStr "ignored" ]}
    = Returned self
    /\ self !! "label" = Some (VStr "unnamed").
Proof.
  apply (default_taken_when_key_absent Product "label" str_schema
           (PydanticField (VStr "unnamed") (Some "name")
              (Some "Label shown to customers"))
           (VStr "unnamed") (Some "name") (Some "Label shown to customers")).
  - exact Product_names_distinct.
  - apply list_elem_of_further, list_elem_of_here.
  - reflexivity.
  - discriminate.
  - reflexivity.
  - intros n f Hin Hn. cbn in Hin.
    apply elem_of_cons in Hin as [[= -> ->] | Hin]; [eexists; reflexivity |].
    apply elem_of_cons in Hin as [[= -> _] | Hin]; [contradiction Hn; reflexivity |].
    apply list_elem_of_singleton in Hin as [= -> ->]. eexists; reflexivity.
Defined.

(** X10: a required field, aliased or not, whose external name is not in
    the mapping makes construction fail: pydantic's [ValidationError]
    reports it missing at that name, unless the validator of a field
    raised an exception of its own. *)
Theorem required_field_reported_missing
    (cls : DocumentClass) (name : string) (T : CoreSchema) (info : FieldInfo)
    (db_name description : option string) (data : gmap string Value) :
  (name, {| annotation := T; field_info := info |}) ∈ model_fields cls ->
  Field VEllipsis db_name description None None = Returned info ->
  data !! lookup_key name info = None ->
  (exists errs, model_validate cls data = Raised (ValidationError errs)
                /\ mkLineError missing [lookup_key name info] ∈ errs)
  \/ (exists e n f, (n, f) ∈ model_fields cls
                    /\ validate_field PythonMode data n f = InternalErr e
                    /\ model_validate cls data = Raised e).
Proof.
  intros Hin [= <-] Hkey.
  set (info := PydanticField VEllipsis db_name description) in *.
  assert (validate_field PythonMode data name {| annotation := T; field_info := info |}
          = LineErrors [mkLineError missing [lookup_key name info]]) as Hf.
  { unfold validate_field. cbn [field_info]. rewrite Hkey. reflexivity. }
  destruct (validate_fields_failure PythonMode data (model_fields cls) ∅ []
              _ _ _ (mkLineError missing [lookup_key name info]) Hin Hf)
    as [(es & Hes & He) | (e & n & f & Hnf & Hv & Hr)].
  - apply list_elem_of_here.
  - left. exists es. unfold model_validate. rewrite Hes. split; [reflexivity | exact He].
  - right. exists e, n, f. unfold model_validate. rewrite Hr.
    split; [exact Hnf | split; [exact Hv | reflexivity]].
Qed.

Lemma required_field_reported_missing_witness :
  (exists errs,
      model_validate Customer {[ "id" := VInt 42 ]} = Raised (ValidationError errs)
      /\ mkLineError missing ["email"] ∈ errs)
  \/ (exists e n f,
         (n, f) ∈ model_fields Customer
         /\ validate_field PythonMode {[ "id" := VInt 42 ]} n f = InternalErr e
         /\ model_validate Customer {[ "id" := VInt 42 ]} = Raised e).
Proof.
  apply (required_field_reported_missing Customer "email" str_schema
           (PydanticField VEllipsis None (Some "Customer email address"))
           None (Some "Customer email address")).
  - apply list_elem_of_further, list_elem_of_here.
  - reflexivity.
  - reflexivity.
Defined.

(** The validation of one field reads the mapping at the field's key only. *)
Lemma validate_field_ext (mode : Mode) (data data' : gmap string Value)
    (name : string) (f : FieldDecl) :
  data !! lookup_key name (field_info f) = data' !! lookup_key name (field_info f) ->
  validate_field mode data name f = validate_field mode data' name f.
Proof. unfold validate_field. intros ->. reflexivity. Qed.

Lemma validate_fields_ext (mode : Mode) (data data' : gmap string Value)
    (fields : list (string * FieldDecl)) model_dict errors :
  (forall n f, (n, f) ∈ fields ->
               data !! lookup_key n (field_info f) = data' !! lookup_key n (field_info f)) ->
  validate_fields mode fields data model_dict errors
  = validate_fields mode fields data' model_dict errors.
Proof.
  revert model_dict errors.
  induction fields as [| [n f] rest IH]; intros model_dict errors H; [reflexivity |].
  cbn. rewrite (validate_field_ext mode data data' n f); [| apply H, list_elem_of_here].
  assert (forall n' f', (n', f') ∈ rest ->
            data !! lookup_key n' (field_info f') = data' !! lookup_key n' (field_info f'))
    as Hrest by (intros n' f' Hin; apply H, list_elem_of_further, Hin).
  destruct (validate_field mode data' n f); [apply IH | apply IH | reflexivity];
    exact Hrest.
Qed.

(** X11: construction reads the mapping at the external names of the
    fields and nowhere else: two mappings that agree there give the same
    result, so a key that no field looks up (the declared name of an
    aliased field among them) is ignored. *)
Theorem only_external_names_are_read (cls : DocumentClass)
    (data data' : gmap string Value) :
  (forall n f, (n, f) ∈ model_fields cls ->
               data !! lookup_key n (field_info f) = data' !! lookup_key n (field_info f)) ->
  model_validate cls data = model_validate cls data'.
Proof.
  intros H. unfold model_validate.
  rewrite (validate_fields_ext PythonMode data data' _ _ _ H). reflexivity.
Qed.

Lemma only_external_names_are_read_witness :
  model_validate Customer {[ "id" := VInt 42; "email" := VStr "a@b.com" ]}
  = model_validate Customer
      {[ "id" := VInt 42; "email" := VStr "a@b.com";
         "customer_id" := VInt 7; "unknown" := VNone ]}.
Proof.
  apply (only_external_names_are_read Customer).
  intros n f Hin. cbn in Hin.
  apply elem_of_cons in Hin as [[= -> ->] | Hin]; [reflexivity |].
  apply list_elem_of_singleton in Hin as [= -> ->]. reflexivity.
Defined.



(** ** Schemas: descriptions *)

Lemma same_but_description_validate (mode : Mode) (data : gmap string Value)
    (f g : string * FieldDecl) :
  same_but_description f g ->
  validate_field mode data f.1 f.2 = validate_field mode data g.1 g.2.
Proof.
  destruct f as [n [T i]], g as [n' [T' i']].
  intros (Hn & HT & d & a & de & de' & [= <-] & [= <-]).
  cbn in Hn, HT. subst. reflexivity.
Qed.

Lemma same_but_description_serialize (mode : Mode) (by_alias : bool)
    (f g : string * FieldDecl) :
  same_but_description f g ->
  serialization_key by_alias f.1 (field_info f.2)
  = serialization_key by_alias g.1 (field_info g.2)
  /\ annotation f.2 = annotation g.2 /\ f.1 = g.1.
Proof.
  destruct f as [n [T i]], g as [n' [T' i']].
  intros (Hn & HT & d & a & de & de' & [= <-] & [= <-]).
  cbn in Hn, HT. subst. repeat split.
Qed.

Lemma same_but_description_validate_fields (mode : Mode) (data : gmap string Value)
    (fields fields' : list (string * FieldDecl)) model_dict errors :
  Forall2 same_but_description fields fields' ->
  validate_fields mode fields data model_dict errors
  = validate_fields mode fields' data model_dict errors.
Proof.
  intros H. revert model_dict errors.
  induction H as [| [n f] [n' f'] rest rest' Hfg _ IH]; intros model_dict errors;
    [reflexivity |].
  cbn. pose proof (same_but_description_validate mode data _ _ Hfg) as Hv.
  destruct Hfg as (Hn & _). cbn in Hn, Hv. subst n'. rewrite Hv.
  destruct (validate_field mode data n f'); [apply IH | apply IH | reflexivity].
Qed.

Lemma same_but_description_serialize_fields (mode : Mode) (by_alias : bool)
    (self : gmap string Value) (fields fields' : list (string * FieldDecl)) out :
  Forall2 same_but_description fields fields' ->
  serialize_fields mode by_alias fields self out
  = serialize_fields mode by_alias fields' self out.
Proof.
  intros H. revert out.
  induction H as [| [n f] [n' f'] rest rest' Hfg _ IH]; intros out; [reflexivity |].
  destruct (same_but_description_serialize mode by_alias _ _ Hfg) as (Hk & HT & Hn).
  cbn in Hk, HT, Hn. subst n'. cbn. rewrite Hk, HT.
  destruct (self !! n); [| apply IH].
  destruct (serialize mode (annotation f') v); [cbn; apply IH | reflexivity].
Qed.

(** X13: the [description] given to [Field] has no effect on validation or
    serialization: two classes whose fields differ in their descriptions
    only construct the same instances, from Python and from JSON, fail
    alike, and are dumped alike. *)
Theorem description_has_no_effect (cls cls' : DocumentClass) :
  Forall2 same_but_description (model_fields cls) (model_fields cls') ->
  (forall data, model_validate cls data = model_validate cls' data)
  /\ (forall data, model_validate_json cls data = model_validate_json cls' data)
  /\ (forall mode by_alias self,
        model_dump cls mode by_alias self = model_dump cls' mode by_alias self).
Proof.
  intros H. repeat split; intros.
  - unfold model_validate.
    rewrite (same_but_description_validate_fields _ _ _ _ _ _ H). reflexivity.
  - unfold model_validate_json.
    rewrite (same_but_description_validate_fields _ _ _ _ _ _ H). reflexivity.
  - unfold model_dump. apply same_but_description_serialize_fields, H.
Qed.

Lemma description_has_no_effect_witness :
  (forall data,
      model_validate Customer data
      = model_validate
          {| __collection__ := Some "customers"; __table__ := None;
             __description__ := None;
             model_fields :=
               [ ("customer_id",
                  {| annotation := any_schema;
                     field_info := PydanticField VEllipsis (Some "id") None |});
                 ("email",
                  {| annotation := str_schema;
                     field_info := PydanticField VEllipsis None (Some "E-mail") |}) ] |}
          data)
  /\ (forall data,
        model_validate_json Customer data
        = model_validate_json
            {| __collection__ := Some "customers"; __table__ := None;
               __description__ := None;
               model_fields :=
                 [ ("customer_id",
                    {| annotation := any_schema;
                       field_info := PydanticField VEllipsis (Some "id") None |});
                   ("email",
                    {| annotation := str_schema;
                       field_info := PydanticField VEllipsis None (Some "E-mail") |}) ] |}
            data)
  /\ (forall mode by_alias self,
        model_dump Customer mode by_alias self
        = model_dump
            {| __collection__ := Some "customers"; __table__ := None;
               __description__ := None;
               model_fields :=
                 [ ("customer_id",
                    {| annotation := any_schema;
                       field_info := PydanticField VEllipsis (Some "id") None |});
                   ("email",
                    {| annotation := str_schema;
                       field_info := PydanticField VEllipsis None (Some "E-mail") |}) ] |}
            mode by_alias self).
Proof.
  apply (description_has_no_effect Customer).
  cbn. repeat constructor; cbn.
  - exists VEllipsis, (Some "id"), (Some "Unique customer identifier"), None.
    split; reflexivity.
  - exists VEllipsis, None, (Some "Customer email address"), (Some "E-mail").
    split; reflexivity.
Defined.

(** ** Schemas: the keys of a dump *)

(** X14: a field is written, with [by_alias], under the key it was read
    from: after a construction that found a value under the field's
    external name, the dump of the instance by alias holds the serialized
    value under that name (no other field being written under it). *)
Theorem dump_by_alias_restores_key
    (cls : DocumentClass) (name : string) (T : CoreSchema) (info : FieldInfo)
    (default : Value) (db_name description : option string)
    (data self out : gmap string Value) (v v' : Value) (mode : Mode) :
  NoDup (model_fields cls).*1 ->
  (name, {| annotation := T; field_info := info |}) ∈ model_fields cls ->
  Field default db_name description None None = Returned info ->
  data !! lookup_key name info = Some v ->
  validate PythonMode T v = Valid v' ->
  model_validate cls data = Returned self ->
  model_dump cls mode true self = Returned out ->
  (forall n f, (n, f) ∈ model_fields cls -> n <> name ->
               serialization_key true n (field_info f) <> lookup_key name info) ->
  self !! name = Some v'
  /\ exists w, serialize mode T v' = Returned w
               /\ out !! lookup_key name info = Some w.
Proof.
  intros Hnd Hin [= <-] Hv HT Hself Hout Hkeys.
  set (info := PydanticField default db_name description) in *.
  assert (self !! name = Some v') as Hs.
  { unfold model_validate in Hself.
    destruct (validate_fields PythonMode (model_fields cls) data ∅ [])
      as [self' | es | e] eqn:E; try discriminate.
    injection Hself as ->.
    eapply validate_fields_lookup; [exact Hnd | exact E | exact Hin |].
    unfold validate_field. cbn [field_info annotation]. rewrite Hv, HT. reflexivity. }
  split; [exact Hs |].
  assert (serialization_key true name info = lookup_key name info) as Hk
    by reflexivity.
  unfold model_dump in Hout.
  destruct (serialize_fields_lookup mode true self (model_fields cls) ∅ out
              name _ v' Hnd Hout Hin Hs) as (w & Hw & Hl).
  - cbn [field_info]. rewrite Hk. exact Hkeys.
  - exists w. cbn [field_info annotation] in Hw, Hl. rewrite Hk in Hl.
    split; assumption.
Qed.

Lemma dump_by_alias_restores_key_witness :
  ({[ "product_id" :=
        VObjectId cls_ObjectId
          [x65; xf0; xa1; xb2; xc3; xd4; xe5; xf6; x01; x23; x45; x67];
      "label" := VStr "Lamp"; "note" := VNone ]} : gmap string Value)
    !! "product_id"
  = Some (VObjectId cls_ObjectId
            [x65; xf0; xa1; xb2; xc3; xd4; xe5; xf6; x01; x23; x45; x67])
  /\ exists w,
      serialize JsonMode (ObjectId_schema [])
        (VObjectId cls_ObjectId
           [x65; xf0; xa1; xb2; xc3; xd4; xe5; xf6; x01; x23; x45; x67])
      = Returned w
      /\ ({[ "_id" := VStr "65f0a1b2c3d4e5f601234567";
             "name" := VStr "Lamp"; "note" := VNone ]} : gmap string Value)
           !! "_id"
         = Some w.
Proof.
  apply (dump_by_alias_restores_key Product "product_id" (ObjectId_schema [])
           (PydanticField VEllipsis (Some "_id") None)
           VEllipsis (Some "_id") None
           {[ "_id" := VStr "65f0a1b2c3d4e5f601234567"; "name" := VStr "Lamp" ]}
           _ _ (VStr "65f0a1b2c3d4e5f601234567") _ JsonMode).
  - exact Product_names_distinct.
  - apply list_elem_of_here.
  - reflexivity.
  - reflexivity.
  - reflexivity.
  - vm_compute. reflexivity.
  - vm_compute. reflexivity.
  - intros n f Hin Hn. cbn in Hin.
    apply elem_of_cons in Hin as [[= -> _] | Hin]; [contradiction Hn; reflexivity |].
    apply elem_of_cons in Hin as [[= -> ->] | Hin]; [discriminate |].
    apply list_elem_of_singleton in Hin as [= -> ->]. discriminate.
Defined.

(** X15: without [by_alias] the dump is keyed by the declared names: every
    attribute of the instance is written under its name, aliased or not,
    and no other key is written (an alias is a key of the dump only if it
    is also the name of a field). *)
Theorem dump_without_alias_uses_declared_names
    (cls : DocumentClass) (mode : Mode) (self out : gmap string Value) :
  NoDup (model_fields cls).*1 ->
  model_dump cls mode false self = Returned out ->
  (forall name f v,
      (name, f) ∈ model_fields cls -> self !! name = Some v ->
      exists w, serialize mode (annotation f) v = Returned w /\ out !! name = Some w)
  /\ (forall key, key ∉ (model_fields cls).*1 -> out !! key = None).
Proof.
  intros Hnd Hout. unfold model_dump in Hout. split.
  - intros name f v Hin Hv.
    apply (serialize_fields_lookup mode false self (model_fields cls) ∅ out
             name f v Hnd Hout Hin Hv).
    intros n' f' _ Hn. exact Hn.
  - intros key Hkey.
    rewrite (serialize_fields_lookup_other mode false self _ _ _ key Hout);
      [apply lookup_empty |].
    intros n f Hin Heq. cbn in Heq. subst. apply Hkey.
    apply (list_elem_of_fmap_2' fst _ (key, f)); [exact Hin | reflexivity].
Qed.

Lemma dump_without_alias_uses_declared_names_witness :
  (forall name f v,
      (name, f) ∈ model_fields Customer ->
      ({[ "customer_id" := VInt 42; "email" := VStr "a@b.com" ]} : gmap string Value)
        !! name = Some v ->
      exists w, serialize JsonMode (annotation f) v = Returned w
                /\ ({[ "customer_id" := VInt 42; "email" := VStr "a@b.com" ]}
                    : gmap string Value) !! name = Some w)
  /\ (forall key, key ∉ (model_fields Customer).*1 ->
        ({[ "customer_id" := VInt 42; "email" := VStr "a@b.com" ]}
         : gmap string Value) !! key = None).
Proof.
  apply (dump_without_alias_uses_declared_names Customer JsonMode
           {[ "customer_id" := VInt 42; "email" := VStr "a@b.com" ]}).
  - exact Customer_names_distinct.
  - vm_compute. reflexivity.
Defined.
